(** * SuiClientErrorDecoder: a shallow embedding of [src/index.ts]

    The development follows the latest revision of the decoder, the one
    with the [PATTERN_MATCHERS] table and the separately tracked custom
    tables; the revision before it is embedded in [Earlier] for
    comparison.

    Conventions.  A JavaScript string is a sequence of code units below
    256 (Rocq's [string]).  The numbers that reach the decoder are
    integers; they are kept exact in [Z], which agrees with the host
    language below 2^53.  An error value is a [JS.Value] over a store of
    objects, so that objects can be shared and can hold themselves.
    Running code yields a [JS.Outcome]: a result, an exception, or
    [Beyond] where the run leaves the modelled fragment of the language.

    Layout: characters, the regular-expression engine (syntax, parser
    for the source text of a pattern, backtracking matcher), values and
    completions, the two registry maps, the decoder, the preceding
    revision, the vocabulary of the statements, and then the
    properties. *)

From Stdlib Require Import ZArith Lia Bool List Ascii String DecimalString.
From stdpp Require Import gmap strings list fin_maps sorting.

Import ListNotations.
Open Scope string_scope.
Open Scope Z_scope.

(* ===================================================================== *)
(** ** Characters *)
(* ===================================================================== *)

Module Chars.

Definition code (c : ascii) : nat := nat_of_ascii c.

Definition in_range (lo hi c : ascii) : bool :=
  ((code lo <=? code c) && (code c <=? code hi))%nat.

Definition is_digit (c : ascii) : bool := in_range "0" "9" c.
Definition is_upper (c : ascii) : bool := in_range "A" "Z" c.
Definition is_lower (c : ascii) : bool := in_range "a" "z" c.

(** [\w] : letters, digits and the underscore. *)
Definition is_word (c : ascii) : bool :=
  is_digit c || is_upper c || is_lower c || Ascii.eqb c "_".

(** [\s] restricted to code units below 256: TAB, LF, VT, FF, CR, SPACE
    and NO-BREAK SPACE. *)
Definition is_space (c : ascii) : bool :=
  let n := code c in
  ((9 <=? n) && (n <=? 13) || (n =? 32) || (n =? 160))%nat.

(** Line terminators, which [.] does not match. *)
Definition is_line_terminator (c : ascii) : bool :=
  let n := code c in ((n =? 10) || (n =? 13))%nat.

Definition to_upper (c : ascii) : ascii :=
  if is_lower c then ascii_of_nat (code c - 32) else c.
Definition to_lower (c : ascii) : ascii :=
  if is_upper c then ascii_of_nat (code c + 32) else c.

Definition digit_value (c : ascii) : Z := Z.of_nat (code c - 48).

End Chars.

(* ===================================================================== *)
(** ** Regular expressions *)
(* ===================================================================== *)

Module Regex.

Import Chars.

(** One member of a character class. A single character [c] is the
    range [c-c]. *)
Inductive class_item : Type :=
| CRange (lo hi : ascii)
| CDigit (neg : bool)
| CSpace (neg : bool)
| CWord (neg : bool).

Inductive regex : Type :=
| REmpty
| RSet (neg : bool) (items : list class_item)
| RAny
| RSeq (r1 r2 : regex)
| RAlt (r1 r2 : regex)
| RRepeat (r : regex) (min : nat) (max : option nat) (greedy : bool)
| RGroup (idx : nat) (r : regex)
| RStart
| REnd
| RWordBoundary (neg : bool).

Definition RLit (c : ascii) : regex := RSet false [CRange c c].

(** A pattern that matches nothing (the empty class). *)
Definition RFail : regex := RSet false [].

(** *** Parsing the source text of a pattern

    The parser covers the fragment of the (non-unicode) pattern grammar
    used by the decoder and by ordinary registry keys: literals, [.],
    classes with ranges and the escapes [\d \s \w], groups, alternation,
    the quantifiers [* + ?] and their lazy forms, [^ $ \b \B].  Text
    outside this fragment (braces as quantifiers, look-around,
    back-references, hexadecimal and control escapes) is reported as
    [PUnsupported] instead of being guessed at. *)

Inductive parse_result (A : Type) : Type :=
| POk (a : A)
| PSyntaxError (msg : string)
| PUnsupported.
Arguments POk {A} a.
Arguments PSyntaxError {A} msg.
Arguments PUnsupported {A}.

Definition pbind {A B} (x : parse_result A) (f : A -> parse_result B) : parse_result B :=
  match x with
  | POk a => f a
  | PSyntaxError m => PSyntaxError m
  | PUnsupported => PUnsupported
  end.

Definition is_syntax_char (c : ascii) : bool :=
  existsb (Ascii.eqb c)
    ["^"; "$"; "\"; "."; "*"; "+"; "?"; "("; ")"; "["; "]"; "{"; "}"; "|"; "/"]%char.

Definition is_alnum (c : ascii) : bool := is_digit c || is_upper c || is_lower c.

(** The character denoted by a control escape, if [c] is one. *)
Definition control_escape (c : ascii) : option ascii :=
  if Ascii.eqb c "t" then Some (ascii_of_nat 9)
  else if Ascii.eqb c "n" then Some (ascii_of_nat 10)
  else if Ascii.eqb c "v" then Some (ascii_of_nat 11)
  else if Ascii.eqb c "f" then Some (ascii_of_nat 12)
  else if Ascii.eqb c "r" then Some (ascii_of_nat 13)
  else None.

(** The class denoted by [\d \D \s \S \w \W], if [c] is one of them. *)
Definition class_escape (c : ascii) : option class_item :=
  if Ascii.eqb c "d" then Some (CDigit false)
  else if Ascii.eqb c "D" then Some (CDigit true)
  else if Ascii.eqb c "s" then Some (CSpace false)
  else if Ascii.eqb c "S" then Some (CSpace true)
  else if Ascii.eqb c "w" then Some (CWord false)
  else if Ascii.eqb c "W" then Some (CWord true)
  else None.

(** An escape that denotes one literal character: a control escape, an
    escaped syntax character, or an escaped character that is neither a
    letter nor a digit. *)
Definition char_escape (c : ascii) : parse_result ascii :=
  match control_escape c with
  | Some k => POk k
  | None =>
      if is_syntax_char c then POk c
      else if is_alnum c then PUnsupported
      else POk c
  end.

(** One class atom: either a single character or a class escape. *)
Inductive class_atom : Type :=
| AChar (c : ascii)
| AClass (i : class_item).

Definition parse_class_atom (s : list ascii) : parse_result (class_atom * list ascii) :=
  match s with
  | [] => PSyntaxError "Unterminated character class"
  | "\"%char :: [] => PSyntaxError "\ at end of pattern"
  | "\"%char :: c :: rest =>
      match class_escape c with
      | Some i => POk (AClass i, rest)
      | None =>
          if Ascii.eqb c "b" then POk (AChar (ascii_of_nat 8), rest)
          else if Ascii.eqb c "-" then POk (AChar c, rest)
          else pbind (char_escape c) (fun k => POk (AChar k, rest))
      end
  | c :: rest => POk (AChar c, rest)
  end.

(** The members of a class, up to and including the closing bracket. *)
Fixpoint parse_class_items (fuel : nat) (s : list ascii) (acc : list class_item)
  : parse_result (list class_item * list ascii) :=
  match fuel with
  | O => PUnsupported
  | S fuel' =>
      match s with
      | [] => PSyntaxError "Unterminated character class"
      | "]"%char :: rest => POk (rev acc, rest)
      | _ =>
          pbind (parse_class_atom s) (fun '(a, rest) =>
            match rest with
            | "-"%char :: "]"%char :: rest' =>
                (* a trailing dash is a literal dash *)
                let i := match a with AChar c => CRange c c | AClass i => i end in
                POk (rev (CRange "-" "-" :: i :: acc), rest')
            | "-"%char :: rest' =>
                pbind (parse_class_atom rest') (fun '(b, rest'') =>
                  match a, b with
                  | AChar lo, AChar hi =>
                      if (code lo <=? code hi)%nat
                      then parse_class_items fuel' rest'' (CRange lo hi :: acc)
                      else PSyntaxError "Range out of order in character class"
                  | _, _ => PUnsupported
                  end)
            | _ =>
                let i := match a with AChar c => CRange c c | AClass i => i end in
                parse_class_items fuel' rest (i :: acc)
            end)
      end
  end.

Definition parse_class (s : list ascii) : parse_result (regex * list ascii) :=
  match s with
  | "^"%char :: rest =>
      pbind (parse_class_items (S (List.length rest)) rest [])
            (fun '(items, rest') => POk (RSet true items, rest'))
  | _ =>
      pbind (parse_class_items (S (List.length s)) s [])
            (fun '(items, rest') => POk (RSet false items, rest'))
  end.

Definition is_quantifier_start (c : ascii) : bool :=
  Ascii.eqb c "*" || Ascii.eqb c "+" || Ascii.eqb c "?".

(** An optional quantifier after the atom [r]. *)
Definition parse_quantifier (r : regex) (s : list ascii) : parse_result (regex * list ascii) :=
  let lazy (min : nat) (max : option nat) (rest : list ascii) :=
    match rest with
    | "?"%char :: rest' => POk (RRepeat r min max false, rest')
    | _ => POk (RRepeat r min max true, rest)
    end in
  match s with
  | "*"%char :: rest => lazy 0%nat None rest
  | "+"%char :: rest => lazy 1%nat None rest
  | "?"%char :: rest => lazy 0%nat (Some 1%nat) rest
  | "{"%char :: _ => PUnsupported
  | _ => POk (r, s)
  end.

(** After an atom and its quantifier, a further quantifier has nothing
    to repeat. *)
Definition no_quantifier (s : list ascii) : parse_result unit :=
  match s with
  | c :: _ =>
      if is_quantifier_start c then PSyntaxError "Nothing to repeat"
      else if Ascii.eqb c "{" then PUnsupported
      else POk tt
  | [] => POk tt
  end.

Definition quantified (r : regex) (s : list ascii) : parse_result (regex * list ascii) :=
  pbind (parse_quantifier r s) (fun '(q, rest) =>
    pbind (no_quantifier rest) (fun _ => POk (q, rest))).

Definition assertion (r : regex) (s : list ascii) : parse_result (regex * list ascii) :=
  pbind (no_quantifier s) (fun _ => POk (r, s)).

(** [parse_alt fuel s n] reads one alternative (a sequence of terms) and
    [parse_disj fuel s n] a disjunction; [n] counts the capture groups
    opened so far.  Both stop in front of an unconsumed [")"] or at the
    end of the text. *)
Fixpoint parse_alt (fuel : nat) (s : list ascii) (n : nat) {struct fuel}
  : parse_result (regex * list ascii * nat) :=
  match fuel with
  | O => PUnsupported
  | S fuel' =>
      let continue (x : parse_result (regex * list ascii)) (n' : nat) :=
        pbind x (fun '(r, rest) =>
          pbind (parse_alt fuel' rest n') (fun '(r', rest', n'') =>
            POk (RSeq r r', rest', n''))) in
      match s with
      | [] => POk (REmpty, s, n)
      | "|"%char :: _ => POk (REmpty, s, n)
      | ")"%char :: _ => POk (REmpty, s, n)
      | "^"%char :: rest => continue (assertion RStart rest) n
      | "$"%char :: rest => continue (assertion REnd rest) n
      | "."%char :: rest => continue (quantified RAny rest) n
      | "*"%char :: _ => PSyntaxError "Nothing to repeat"
      | "+"%char :: _ => PSyntaxError "Nothing to repeat"
      | "?"%char :: _ => PSyntaxError "Nothing to repeat"
      | "{"%char :: _ => PUnsupported
      | "["%char :: rest =>
          continue (pbind (parse_class rest) (fun '(r, rest') => quantified r rest')) n
      | "("%char :: "?"%char :: ":"%char :: rest =>
          pbind (parse_disj fuel' rest n) (fun '(r, rest', n') =>
            match rest' with
            | ")"%char :: rest'' => continue (quantified r rest'') n'
            | _ => PSyntaxError "Unterminated group"
            end)
      | "("%char :: "?"%char :: _ => PUnsupported
      | "("%char :: rest =>
          pbind (parse_disj fuel' rest (S n)) (fun '(r, rest', n') =>
            match rest' with
            | ")"%char :: rest'' => continue (quantified (RGroup (S n) r) rest'') n'
            | _ => PSyntaxError "Unterminated group"
            end)
      | "\"%char :: [] => PSyntaxError "\ at end of pattern"
      | "\"%char :: c :: rest =>
          if Ascii.eqb c "b" then continue (assertion (RWordBoundary false) rest) n
          else if Ascii.eqb c "B" then continue (assertion (RWordBoundary true) rest) n
          else match class_escape c with
               | Some i => continue (quantified (RSet false [i]) rest) n
               | None =>
                   continue (pbind (char_escape c) (fun k => quantified (RLit k) rest)) n
               end
      | c :: rest => continue (quantified (RLit c) rest) n
      end
  end
with parse_disj (fuel : nat) (s : list ascii) (n : nat) {struct fuel}
  : parse_result (regex * list ascii * nat) :=
  match fuel with
  | O => PUnsupported
  | S fuel' =>
      pbind (parse_alt fuel' s n) (fun '(r, rest, n') =>
        match rest with
        | "|"%char :: rest' =>
            pbind (parse_disj fuel' rest' n') (fun '(r', rest'', n'') =>
              POk (RAlt r r', rest'', n''))
        | _ => POk (r, rest, n')
        end)
  end.

(** The whole pattern: a disjunction that consumes all of the text. *)
Definition parse (src : string) : parse_result regex :=
  let s := list_ascii_of_string src in
  pbind (parse_disj (2 * List.length s + 2) s 0%nat) (fun '(r, rest, _) =>
    match rest with
    | [] => POk r
    | ")"%char :: _ => PSyntaxError "Unmatched ')'"
    | _ => PUnsupported
    end).

(** *** Matching

    A backtracking matcher in continuation-passing style, following the
    priority order of the language: alternatives left to right, greedy
    repetition longest first, lazy repetition shortest first.  A matcher
    state records the character before the current position (for word
    boundaries), the rest of the input, the index, and the captures. *)

Record mstate : Type := MState {
  ms_prev : option ascii;
  ms_rest : list ascii;
  ms_pos : nat;
  ms_caps : list (nat * list ascii)
}.

Definition item_matches (i : class_item) (c : ascii) : bool :=
  match i with
  | CRange lo hi => in_range lo hi c
  | CDigit neg => xorb neg (is_digit c)
  | CSpace neg => xorb neg (is_space c)
  | CWord neg => xorb neg (is_word c)
  end.

(** Membership of [c] in a class.  With the ignore-case flag a character
    belongs to the class when some character with the same case folding
    does. *)
Definition set_matches (icase neg : bool) (items : list class_item) (c : ascii) : bool :=
  let member (k : ascii) := existsb (fun i => item_matches i k) items in
  let found :=
    if icase then member c || member (to_upper c) || member (to_lower c)
    else member c in
  xorb neg found.

Definition step (x : mstate) : option (ascii * mstate) :=
  match ms_rest x with
  | [] => None
  | c :: rest =>
      Some (c, MState (Some c) rest (S (ms_pos x)) (ms_caps x))
  end.

Definition is_word_opt (o : option ascii) : bool :=
  match o with Some c => is_word c | None => false end.

Definition at_word_boundary (x : mstate) : bool :=
  xorb (is_word_opt (ms_prev x)) (is_word_opt (head (ms_rest x))).

Definition set_capture (i : nat) (text : list ascii) (x : mstate) : mstate :=
  MState (ms_prev x) (ms_rest x) (ms_pos x)
         ((i, text) :: List.filter (fun p => negb (Nat.eqb (fst p) i)) (ms_caps x)).

Definition or_else {A} (a : option A) (b : option A) : option A :=
  match a with Some _ => a | None => b end.

Section Matcher.

Variable icase : bool.

Fixpoint rmatch (r : regex) (k : mstate -> option mstate) (x : mstate) {struct r}
  : option mstate :=
  match r with
  | REmpty => k x
  | RSet neg items =>
      match step x with
      | Some (c, y) => if set_matches icase neg items c then k y else None
      | None => None
      end
  | RAny =>
      match step x with
      | Some (c, y) => if is_line_terminator c then None else k y
      | None => None
      end
  | RSeq r1 r2 => rmatch r1 (rmatch r2 k) x
  | RAlt r1 r2 => or_else (rmatch r1 k x) (rmatch r2 k x)
  | RRepeat r' min max greedy =>
      (fix rep (fuel min : nat) (max : option nat) (x : mstate) {struct fuel}
         : option mstate :=
         match fuel with
         | O => None
         | S fuel' =>
             match max with
             | Some O => k x
             | _ =>
                 (* one more iteration; once the minimum is reached an
                    iteration that consumes nothing is rejected *)
                 let again (y : mstate) :=
                   if Nat.eqb min 0 && Nat.eqb (ms_pos y) (ms_pos x) then None
                   else rep fuel' (Nat.pred min) (option_map Nat.pred max) y in
                 if negb (Nat.eqb min 0) then rmatch r' again x
                 else if greedy then or_else (rmatch r' again x) (k x)
                 else or_else (k x) (rmatch r' again x)
             end
         end) (S (min + List.length (ms_rest x))) min max x
  | RGroup i r' =>
      rmatch r' (fun y =>
        k (set_capture i (firstn (ms_pos y - ms_pos x) (ms_rest x)) y)) x
  | RStart => if Nat.eqb (ms_pos x) 0 then k x else None
  | REnd => match ms_rest x with [] => k x | _ => None end
  | RWordBoundary neg => if xorb neg (at_word_boundary x) then k x else None
  end.

(** Leftmost match: try every start index in turn. *)
Fixpoint search (r : regex) (prev : option ascii) (rest : list ascii) (pos : nat)
  : option (nat * mstate) :=
  match rmatch r Some (MState prev rest pos []) with
  | Some y => Some (pos, y)
  | None =>
      match rest with
      | [] => None
      | c :: rest' => search r (Some c) rest' (S pos)
      end
  end.

End Matcher.

(** A compiled pattern, as a [RegExp] object holds it. *)
Record RegExp : Type := MkRegExp {
  re_ast : regex;
  re_ignoreCase : bool
}.

(** The result of a successful match: the index, the matched text and
    the text of the capture groups. *)
Record MatchResult : Type := MkMatch {
  m_index : nat;
  m_text : string;
  m_captures : list (nat * string)
}.

Definition exec (re : RegExp) (s : string) : option MatchResult :=
  let input := list_ascii_of_string s in
  match search (re_ignoreCase re) (re_ast re) None input 0 with
  | None => None
  | Some (start, y) =>
      Some (MkMatch start
              (string_of_list_ascii (firstn (ms_pos y - start) (skipn start input)))
              (map (fun p => (fst p, string_of_list_ascii (snd p))) (ms_caps y)))
  end.

(** [re.test(s)] *)
Definition test (re : RegExp) (s : string) : bool :=
  match exec re s with Some _ => true | None => false end.

(** [match[i]] for a capture group: [None] is [undefined]. *)
Definition capture (m : MatchResult) (i : nat) : option string :=
  snd <$> List.find (fun p => Nat.eqb (fst p) i) (m_captures m).

(** A pattern written as a literal in the source.  The literals of the
    decoder all lie in the supported fragment (see [literals_parse]
    below), so the fallback is never taken. *)
Definition literal (src : string) (ignoreCase : bool) : RegExp :=
  match parse src with
  | POk r => MkRegExp r ignoreCase
  | _ => MkRegExp RFail ignoreCase
  end.

End Regex.

(* ===================================================================== *)
(** ** JavaScript values, objects and completions *)
(* ===================================================================== *)

Module JS.

Definition loc : Type := nat.

(** The built-in methods the decoder can reach through an error value. *)
Inductive Builtin : Type :=
| ObjectProto_toString
| ObjectProto_valueOf
| ArrayProto_toString
| ErrorProto_toString.

Inductive Value : Type :=
| VUndefined
| VNull
| VBoolean (b : bool)
| VNumber (n : Z)
| VString (s : string)
| VObject (l : loc)
| VBuiltin (b : Builtin).

Inductive Exn : Type :=
| SyntaxError (msg : string)
| TypeError (msg : string)
| Thrown (v : Value).

(** The outcome of running a piece of code: a normal return, an
    exception, or [Beyond] when the run leaves the modelled fragment of
    the language (so that nothing is claimed about it). *)
Inductive Outcome (A : Type) : Type :=
| Return (a : A)
| Raise (e : Exn)
| Beyond.
Arguments Return {A} a.
Arguments Raise {A} e.
Arguments Beyond {A}.

Definition bind {A B} (x : Outcome A) (f : A -> Outcome B) : Outcome B :=
  match x with
  | Return a => f a
  | Raise e => Raise e
  | Beyond => Beyond
  end.

Notation "'let!' x ':=' e 'in' k" := (bind e (fun x => k))
  (at level 10, x pattern, e at level 100, k at level 200).

(** [try { return body } catch (e) { return handler }] *)
Definition try_catch {A} (body : Outcome A) (handler : A) : Outcome A :=
  match body with
  | Raise _ => Return handler
  | other => other
  end.

(** Property keys: strings and the one well-known symbol that string
    conversion consults. *)
Inductive Key : Type :=
| KString (s : string)
| KToPrimitive.
Coercion KString : string >-> Key.

Definition key_eqb (a b : Key) : bool :=
  match a, b with
  | KString x, KString y => String.eqb x y
  | KToPrimitive, KToPrimitive => true
  | _, _ => false
  end.

(** A property is a data slot, or an accessor given by the outcome of
    its getter.  A user function is given by the outcome of calling it as
    a method of the object that holds it.  Getters and methods are
    deterministic. *)
Inductive Property : Type :=
| Data (v : Value)
| Accessor (get : Outcome Value).

Inductive ObjClass : Type :=
| ClassObject                          (* prototype Object.prototype *)
| ClassArray (elements : list Value)   (* prototype Array.prototype *)
| ClassError                           (* prototype Error.prototype *)
| ClassNullProto                       (* Object.create(null) *)
| ClassFunction (call : Outcome Value) (* prototype Function.prototype *).

Record Object : Type := MkObject {
  obj_class : ObjClass;
  obj_props : list (Key * Property)
}.

(** The store.  A value [VObject l] denotes the object at [l]; several
    properties may hold the same location, and an object may hold its
    own. *)
Definition Heap : Type := loc -> Object.

Fixpoint own_property (k : Key) (ps : list (Key * Property)) : option Property :=
  match ps with
  | [] => None
  | (k', p) :: rest => if key_eqb k k' then Some p else own_property k rest
  end.

Definition is_key (k : Key) (names : list string) : bool :=
  match k with
  | KString s => existsb (String.eqb s) names
  | KToPrimitive => false
  end.

(** What the prototype chain of each class answers for the keys the
    decoder and the conversions read. *)
Definition inherited (c : ObjClass) (k : Key) : Outcome Value :=
  match c with
  | ClassNullProto => Return VUndefined
  | ClassObject =>
      if is_key k ["toString"] then Return (VBuiltin ObjectProto_toString)
      else if is_key k ["valueOf"] then Return (VBuiltin ObjectProto_valueOf)
      else if is_key k ["message"; "cause"; "name"; "match"] then Return VUndefined
      else match k with KToPrimitive => Return VUndefined | _ => Beyond end
  | ClassArray _ =>
      if is_key k ["toString"] then Return (VBuiltin ArrayProto_toString)
      else if is_key k ["valueOf"] then Return (VBuiltin ObjectProto_valueOf)
      else if is_key k ["message"; "cause"; "name"; "match"] then Return VUndefined
      else match k with KToPrimitive => Return VUndefined | _ => Beyond end
  | ClassError =>
      if is_key k ["toString"] then Return (VBuiltin ErrorProto_toString)
      else if is_key k ["valueOf"] then Return (VBuiltin ObjectProto_valueOf)
      else if is_key k ["message"] then Return (VString "")
      else if is_key k ["name"] then Return (VString "Error")
      else if is_key k ["cause"; "match"] then Return VUndefined
      else match k with KToPrimitive => Return VUndefined | _ => Beyond end
  | ClassFunction _ =>
      if is_key k ["valueOf"] then Return (VBuiltin ObjectProto_valueOf)
      else if is_key k ["message"; "cause"; "match"] then Return VUndefined
      else match k with KToPrimitive => Return VUndefined | _ => Beyond end
  end.

(** [v[k]] for a value that is neither [null] nor [undefined]. *)
Definition get (h : Heap) (v : Value) (k : Key) : Outcome Value :=
  match v with
  | VUndefined | VNull => Raise (TypeError "Cannot read properties of null or undefined")
  | VObject l =>
      match own_property k (obj_props (h l)) with
      | Some (Data x) => Return x
      | Some (Accessor g) => g
      | None => inherited (obj_class (h l)) k
      end
  | VBoolean _ | VNumber _ | VString _ | VBuiltin _ =>
      if is_key k ["message"] then Return VUndefined else Beyond
  end.

Inductive JSType : Type :=
| TUndefined | TObject | TBoolean | TNumber | TString | TFunction.

Definition typeof (h : Heap) (v : Value) : JSType :=
  match v with
  | VUndefined => TUndefined
  | VNull => TObject
  | VBoolean _ => TBoolean
  | VNumber _ => TNumber
  | VString _ => TString
  | VBuiltin _ => TFunction
  | VObject l =>
      match obj_class (h l) with
      | ClassFunction _ => TFunction
      | _ => TObject
      end
  end.

Definition JSType_eqb (a b : JSType) : bool :=
  match a, b with
  | TUndefined, TUndefined | TObject, TObject | TBoolean, TBoolean
  | TNumber, TNumber | TString, TString | TFunction, TFunction => true
  | _, _ => false
  end.

(** ToBoolean *)
Definition truthy (v : Value) : bool :=
  match v with
  | VUndefined | VNull => false
  | VBoolean b => b
  | VNumber n => negb (n =? 0)
  | VString s => negb (String.eqb s "")
  | VObject _ | VBuiltin _ => true
  end.

Definition is_object (v : Value) : bool :=
  match v with VObject _ | VBuiltin _ => true | _ => false end.

Definition is_nullish (v : Value) : bool :=
  match v with VUndefined | VNull => true | _ => false end.

(** Number::toString for an integer. *)
Definition Number_toString (n : Z) : string :=
  NilZero.string_of_int (Z.to_int n).

(** ToString on a primitive. *)
Definition ToString_primitive (v : Value) : Outcome string :=
  match v with
  | VUndefined => Return "undefined"
  | VNull => Return "null"
  | VBoolean true => Return "true"
  | VBoolean false => Return "false"
  | VNumber n => Return (Number_toString n)
  | VString s => Return s
  | VObject _ | VBuiltin _ => Beyond
  end.

Fixpoint join (h : Heap) (elements : list Value) : Outcome string :=
  let piece (v : Value) :=
    if is_nullish v then Return "" else ToString_primitive v in
  match elements with
  | [] => Return ""
  | [v] => piece v
  | v :: rest =>
      let! a := piece v in
      let! b := join h rest in
      Return (a ++ "," ++ b)
  end.

Definition call_builtin (h : Heap) (b : Builtin) (this : Value) : Outcome Value :=
  match this with
  | VObject l =>
      match b with
      | ObjectProto_toString =>
          match obj_class (h l) with
          | ClassObject | ClassNullProto => Return (VString "[object Object]")
          | ClassArray _ => Return (VString "[object Array]")
          | ClassError => Return (VString "[object Error]")
          | ClassFunction _ => Return (VString "[object Function]")
          end
      | ObjectProto_valueOf => Return this
      | ArrayProto_toString =>
          match obj_class (h l), own_property (KString "join") (obj_props (h l)) with
          | ClassArray elements, None =>
              let! s := join h elements in Return (VString s)
          | _, _ => Beyond
          end
      | ErrorProto_toString =>
          let! name := get h this "name" in
          let! name := (match name with
                        | VUndefined => Return "Error"
                        | _ => ToString_primitive name
                        end) in
          let! msg := get h this "message" in
          let! msg := (match msg with
                       | VUndefined => Return ""
                       | _ => ToString_primitive msg
                       end) in
          if String.eqb name "" then Return (VString msg)
          else if String.eqb msg "" then Return (VString name)
          else Return (VString (name ++ ": " ++ msg))
      end
  | _ => Beyond
  end.

Definition is_callable (h : Heap) (v : Value) : bool :=
  JSType_eqb (typeof h v) TFunction.

(** [f.call(this)] *)
Definition call (h : Heap) (f this : Value) : Outcome Value :=
  match f with
  | VBuiltin b => call_builtin h b this
  | VObject l =>
      match obj_class (h l) with
      | ClassFunction c => c
      | _ => Raise (TypeError "not a function")
      end
  | _ => Raise (TypeError "not a function")
  end.

(** OrdinaryToPrimitive with hint string: [toString], then [valueOf]. *)
Definition OrdinaryToPrimitive (h : Heap) (o : Value) : Outcome Value :=
  let attempt (name : string) (otherwise : Outcome Value) : Outcome Value :=
    let! m := get h o name in
    if is_callable h m then
      let! r := call h m o in
      if is_object r then otherwise else Return r
    else otherwise in
  attempt "toString"
    (attempt "valueOf"
       (Raise (TypeError "Cannot convert object to primitive value"))).

(** ToPrimitive with hint string. *)
Definition ToPrimitive (h : Heap) (v : Value) : Outcome Value :=
  match v with
  | VObject _ =>
      let! exotic := get h v KToPrimitive in
      if is_nullish exotic then OrdinaryToPrimitive h v
      else if is_callable h exotic then
        let! r := call h exotic v in
        if is_object r
        then Raise (TypeError "Cannot convert object to primitive value")
        else Return r
      else Raise (TypeError "Symbol.toPrimitive is not a function")
  | VBuiltin _ => Beyond
  | _ => Return v
  end.

(** [String(v)] *)
Definition String_ (h : Heap) (v : Value) : Outcome string :=
  let! p := ToPrimitive h v in ToString_primitive p.

(** Strict equality with a string constant. *)
Definition is_string_value (v : Value) (s : string) : bool :=
  match v with VString s' => String.eqb s' s | _ => false end.

End JS.

(* ===================================================================== *)
(** ** String helpers of the host language *)
(* ===================================================================== *)

Module Str.

Import Chars.

(** [s.includes(sub)] *)
Fixpoint includes (s sub : string) : bool :=
  if String.prefix sub s then true
  else match s with
       | EmptyString => false
       | String _ s' => includes s' sub
       end.

Fixpoint skip_spaces (s : list ascii) : list ascii :=
  match s with
  | c :: rest => if is_space c then skip_spaces rest else s
  | [] => []
  end.

Fixpoint digits_value (acc : Z) (s : list ascii) : Z :=
  match s with
  | c :: rest => if is_digit c then digits_value (10 * acc + digit_value c) rest else acc
  | [] => acc
  end.

(** [parseInt(s, 10)]; [None] stands for [NaN]. *)
Definition parseInt (s : string) : option Z :=
  let body (sign : Z) (ds : list ascii) : option Z :=
    match ds with
    | c :: _ => if is_digit c then Some (sign * digits_value 0 ds) else None
    | [] => None
    end in
  match skip_spaces (list_ascii_of_string s) with
  | "-"%char :: rest => body (-1) rest
  | "+"%char :: rest => body 1 rest
  | other => body 1 other
  end.

End Str.

(* ===================================================================== *)
(** ** The registry maps *)
(* ===================================================================== *)

(** [ErrorCodeMap]: an object with integer keys.  Such an object always
    enumerates its keys in ascending order, whatever the order of
    insertion, so a finite map is a faithful model. *)
Abbreviation ErrorCodeMap := (gmap Z string).

(** [{ ...a, ...b }] on code maps: the entries of [b] win. *)
Definition spread_codes (a b : ErrorCodeMap) : ErrorCodeMap := union b a.

(** [TransactionErrorMap]: an object with string keys, which enumerates
    them in the order of creation; it is modelled by its entries in that
    order, every key occurring once. *)
Definition TransactionErrorMap : Type := list (string * string).

Module TxMap.

Import Chars.

Fixpoint lookup (k : string) (m : TransactionErrorMap) : option string :=
  match m with
  | [] => None
  | (k', v) :: rest => if String.eqb k k' then Some v else lookup k rest
  end.

(** Assignment of one property: an existing key keeps its place. *)
Fixpoint set (k v : string) (m : TransactionErrorMap) : TransactionErrorMap :=
  match m with
  | [] => [(k, v)]
  | (k', v') :: rest =>
      if String.eqb k k' then (k', v) :: rest else (k', v') :: set k v rest
  end.

(** Copying the properties of [src], in order, into the object [dst]. *)
Definition assign (dst src : TransactionErrorMap) : TransactionErrorMap :=
  fold_left (fun acc kv => set (fst kv) (snd kv) acc) src dst.

(** [{ ...a, ...b }]: a fresh object that receives the properties of
    [a] and then those of [b]. *)
Definition spread (a b : TransactionErrorMap) : TransactionErrorMap :=
  assign (assign [] a) b.

(** Keys that are canonical array indices are enumerated before all
    others, in ascending numeric order. *)
Definition array_index (k : string) : option Z :=
  let cs := list_ascii_of_string k in
  match cs with
  | [] => None
  | c :: rest =>
      if forallb is_digit cs && (negb (Ascii.eqb c "0") || match rest with [] => true | _ => false end)
      then let n := Str.digits_value 0 cs in
           if n <? 4294967295 then Some n else None
      else None
  end.

Fixpoint insert_sorted (e : Z * (string * string)) (l : list (Z * (string * string)))
  : list (Z * (string * string)) :=
  match l with
  | [] => [e]
  | e' :: rest => if fst e <? fst e' then e :: l else e' :: insert_sorted e rest
  end.

(** [Object.entries(m)] *)
Definition entries (m : TransactionErrorMap) : list (string * string) :=
  let indexed :=
    fold_right (fun kv acc =>
      match array_index (fst kv) with
      | Some n => insert_sorted (n, kv) acc
      | None => acc
      end) [] m in
  List.app (map snd indexed)
    (List.filter (fun kv => match array_index (fst kv) with Some _ => false | None => true end) m).

(** The members of [Object.prototype], which every map inherits. *)
Definition Object_prototype_names : list string :=
  ["constructor"; "toString"; "toLocaleString"; "valueOf"; "hasOwnProperty";
   "isPrototypeOf"; "propertyIsEnumerable"; "__proto__"; "__defineGetter__";
   "__defineSetter__"; "__lookupGetter__"; "__lookupSetter__"].

Definition inherits (k : string) : bool :=
  existsb (String.eqb k) Object_prototype_names.

(** An object has every key once; [wf] says so of a list of entries. *)
Definition wf (m : TransactionErrorMap) : Prop := List.NoDup (map fst m).

End TxMap.

(* ===================================================================== *)
(** ** The decoder *)
(* ===================================================================== *)

Inductive Category : Type :=
| move_abort
| transaction
| sui_system
| unknown.

Module ParsedError.
Record t : Type := Make {
  code : option Z;
  errorType : option string;
  message : string;
  isKnownError : bool;
  category : Category;
  originalError : JS.Value
}.
End ParsedError.

Module PatternMatcher.
(** The [message] of a table entry is a string or a function of the
    match. *)
Inductive Message : Type :=
| Fixed (s : string)
| Computed (f : Regex.MatchResult -> string).

Record t : Type := Make {
  pattern : Regex.RegExp;
  category : Category;
  message : Message;
  errorType : option string
}.
End PatternMatcher.

Record SuiErrorDecoderOptions : Type := Options {
  opt_customErrorCodes : option ErrorCodeMap;
  opt_customTransactionErrors : option TransactionErrorMap;
  opt_includeDefaults : option bool
}.

(** The state of one decoder instance. *)
Record SuiClientErrorDecoder : Type := Decoder {
  errorCodes : ErrorCodeMap;
  transactionErrors : TransactionErrorMap;
  customErrorCodes : ErrorCodeMap;
  customTransactionErrors : TransactionErrorMap;
  PATTERN_MATCHERS : list PatternMatcher.t
}.

(** [${v}] for a property read that may be [undefined]. *)
Definition interpolate (v : option string) : string :=
  match v with Some s => s | None => "undefined" end.

Definition system_matcher (src msg : string) (icase : bool) (c : Category) : PatternMatcher.t :=
  PatternMatcher.Make (Regex.literal src icase) c (PatternMatcher.Fixed msg) None.

(** An entry of the "Transaction Errors" block: the message is the
    template literal evaluated against the table [t]. *)
Definition transaction_matcher (t : TransactionErrorMap) (src ty : string) : PatternMatcher.t :=
  PatternMatcher.Make (Regex.literal src true) transaction
    (PatternMatcher.Fixed
       ("Transaction Error (" ++ ty ++ "): " ++ interpolate (TxMap.lookup ty t)))
    (Some ty).

Definition named_matcher (src msg : string) : PatternMatcher.t :=
  PatternMatcher.Make (Regex.literal src false) move_abort (PatternMatcher.Fixed msg) None.

(** The table the constructor stores in [PATTERN_MATCHERS]; [t] is
    [this.transactionErrors] at that moment. *)
Definition build_PATTERN_MATCHERS (t : TransactionErrorMap) : list PatternMatcher.t :=
  [ (* System Errors *)
    system_matcher "InsufficientGas"
      "Insufficient gas for transaction. Please increase gas budget." false sui_system;
    system_matcher "ObjectNotFound"
      "Required object not found. Please check object IDs." false sui_system;
    system_matcher "InvalidObjectOwner"
      "Invalid object ownership. Please verify permissions." false sui_system;
    system_matcher "PackageNotFound"
      "Smart contract package not found. Please check package deployment." false sui_system;
    system_matcher "TransactionExpired"
      "Transaction expired. Please try again." false transaction;
    system_matcher "InvalidSignature"
      "Invalid transaction signature." false transaction;
    system_matcher "Unexpected deserialization error"
      "Unexpected deserialization error" true sui_system;
    (* Transaction Errors *)
    transaction_matcher t "insufficient.*gas" "INSUFFICIENT_GAS";
    transaction_matcher t "invalid.*gas.*object" "INVALID_GAS_OBJECT";
    transaction_matcher t "object.*too.*big" "OBJECT_TOO_BIG";
    transaction_matcher t "package.*too.*big" "PACKAGE_TOO_BIG";
    transaction_matcher t "circular.*ownership" "CIRCULAR_OBJECT_OWNERSHIP";
    transaction_matcher t "insufficient.*coin.*balance" "INSUFFICIENT_COIN_BALANCE";
    transaction_matcher t "function.*not.*found" "FUNCTION_NOT_FOUND";
    transaction_matcher t "move.*abort" "MOVE_ABORT";
    (* Named Move Abort Errors *)
    named_matcher "EInvalidTickRange" "Error: Invalid tick range for liquidity pool";
    named_matcher "EInvalidLiquidity" "Error: Invalid liquidity amount";
    named_matcher "EInvalidTickSpacing"
      "Error: Invalid tick spacing - must be 100, 500, or 3000";
    named_matcher "ETickNotAligned" "Error: Tick not aligned with tick spacing";
    named_matcher "EInsufficientLiquidity" "Error: Insufficient liquidity for pool creation";
    named_matcher "EInvalidPrice" "Error: Invalid price for pool creation";
    named_matcher "EInvalidPhase" "Error: Invalid phase for operation";
    named_matcher "EUnauthorized" "Error: Unauthorized access" ].

Section Construction.

(** The built-in tables of [defaultErrors.ts]. *)
Variable DEFAULT_SUI_ERROR_CODES : ErrorCodeMap.
Variable TRANSACTION_ERROR_CODES : TransactionErrorMap.

(** [new SuiClientErrorDecoder(options)] *)
Definition new (options : SuiErrorDecoderOptions) : SuiClientErrorDecoder :=
  let customErrorCodes := default ∅ (opt_customErrorCodes options) in
  let customTransactionErrors := default [] (opt_customTransactionErrors options) in
  let includeDefaults := default true (opt_includeDefaults options) in
  let errorCodes :=
    if includeDefaults
    then spread_codes DEFAULT_SUI_ERROR_CODES customErrorCodes
    else customErrorCodes in
  let transactionErrors :=
    if includeDefaults
    then TxMap.spread TRANSACTION_ERROR_CODES customTransactionErrors
    else customTransactionErrors in
  Decoder errorCodes transactionErrors customErrorCodes customTransactionErrors
          (build_PATTERN_MATCHERS transactionErrors).

End Construction.

Definition addErrorCodes (d : SuiClientErrorDecoder) (codes : ErrorCodeMap)
  : SuiClientErrorDecoder :=
  Decoder (spread_codes (errorCodes d) codes)
          (transactionErrors d)
          (spread_codes (customErrorCodes d) codes)
          (customTransactionErrors d)
          (PATTERN_MATCHERS d).

Definition addTransactionErrors (d : SuiClientErrorDecoder) (errs : TransactionErrorMap)
  : SuiClientErrorDecoder :=
  Decoder (errorCodes d)
          (TxMap.spread (transactionErrors d) errs)
          (customErrorCodes d)
          (TxMap.spread (customTransactionErrors d) errs)
          (PATTERN_MATCHERS d).

Definition updateDefaultErrorCodes (d : SuiClientErrorDecoder) (defaultCodes : ErrorCodeMap)
  : SuiClientErrorDecoder :=
  Decoder (spread_codes defaultCodes (customErrorCodes d))
          (transactionErrors d)
          (customErrorCodes d)
          (customTransactionErrors d)
          (PATTERN_MATCHERS d).

Definition updateDefaultTransactionErrors (d : SuiClientErrorDecoder)
    (defaultTransactionErrors : TransactionErrorMap) : SuiClientErrorDecoder :=
  Decoder (errorCodes d)
          (TxMap.spread defaultTransactionErrors (customTransactionErrors d))
          (customErrorCodes d)
          (customTransactionErrors d)
          (PATTERN_MATCHERS d).

Definition getErrorCodes (d : SuiClientErrorDecoder) : ErrorCodeMap :=
  spread_codes ∅ (errorCodes d).

Definition getTransactionErrors (d : SuiClientErrorDecoder) : TransactionErrorMap :=
  TxMap.spread [] (transactionErrors d).

(** A string read from a map is truthy when it is present and not
    empty. *)
Definition truthy_message (v : option string) : option string :=
  match v with
  | Some m => if String.eqb m "" then None else Some m
  | None => None
  end.

(** [code in this.errorCodes] *)
Definition isKnownErrorCode (d : SuiClientErrorDecoder) (code : Z) : bool :=
  bool_decide (is_Some (errorCodes d !! code)).

(** [this.errorCodes[code] || null] *)
Definition getErrorMessage (d : SuiClientErrorDecoder) (code : Z) : option string :=
  truthy_message (errorCodes d !! code).

(** [errorType in this.transactionErrors]: own or inherited. *)
Definition isKnownTransactionError (d : SuiClientErrorDecoder) (errorType : string) : bool :=
  match TxMap.lookup errorType (transactionErrors d) with
  | Some _ => true
  | None => TxMap.inherits errorType
  end.

(** [this.transactionErrors[errorType] || null]; for an unregistered
    name that [Object.prototype] defines the read yields a built-in
    object, which is not modelled. *)
Definition getTransactionErrorMessage (d : SuiClientErrorDecoder) (errorType : string)
  : JS.Outcome (option string) :=
  match TxMap.lookup errorType (transactionErrors d) with
  | Some m => JS.Return (truthy_message (Some m))
  | None => if TxMap.inherits errorType then JS.Beyond else JS.Return None
  end.

Import JS.

(** The part of a [ParsedError] that [findPatternMatch] produces. *)
Record PatternResult : Type := MkPatternResult {
  pr_errorType : option string;
  pr_message : string;
  pr_isKnownError : bool;
  pr_category : Category
}.

(** [{ ...patternMatch, originalError: error }] *)
Definition with_originalError (p : PatternResult) (error : Value) : ParsedError.t :=
  ParsedError.Make None (pr_errorType p) (pr_message p) (pr_isKnownError p)
                   (pr_category p) error.

(** [new RegExp(source)] *)
Definition RegExp_new (source : string) : Outcome Regex.RegExp :=
  match Regex.parse source with
  | Regex.POk r => Return (Regex.MkRegExp r false)
  | Regex.PSyntaxError msg => Raise (SyntaxError msg)
  | Regex.PUnsupported => Beyond
  end.

(** The first loop of [findPatternMatch], over the entries of the
    transaction-error table. *)
Fixpoint scan_transaction_errors (entries : list (string * string)) (errorString : string)
  : Outcome (option PatternResult) :=
  match entries with
  | [] => Return None
  | (errorType, message) :: rest =>
      let! re := RegExp_new ("\b" ++ errorType ++ "\b") in
      if Regex.test re errorString then
        Return (Some (MkPatternResult (Some errorType)
                        ("Transaction Error (" ++ errorType ++ "): " ++ message)
                        true transaction))
      else scan_transaction_errors rest errorString
  end.

(** The second loop, over [PATTERN_MATCHERS]. *)
Fixpoint scan_pattern_matchers (matchers : list PatternMatcher.t) (errorString : string)
  : option PatternResult :=
  match matchers with
  | [] => None
  | matcher :: rest =>
      match Regex.exec (PatternMatcher.pattern matcher) errorString with
      | Some m =>
          Some (MkPatternResult
                  (PatternMatcher.errorType matcher)
                  (match PatternMatcher.message matcher with
                   | PatternMatcher.Computed f => f m
                   | PatternMatcher.Fixed s => s
                   end)
                  true
                  (PatternMatcher.category matcher))
      | None => scan_pattern_matchers rest errorString
      end
  end.

Definition findPatternMatch (d : SuiClientErrorDecoder) (errorString : string)
  : Outcome (option PatternResult) :=
  let! exact := scan_transaction_errors (TxMap.entries (transactionErrors d)) errorString in
  match exact with
  | Some r => Return (Some r)
  | None => Return (scan_pattern_matchers (PATTERN_MATCHERS d) errorString)
  end.

(** [error.cause?.message] *)
Definition cause_message (h : Heap) (error : Value) : Outcome Value :=
  let! cause := get h error "cause" in
  if is_nullish cause then Return VUndefined else get h cause "message".

(** The declared result type is [string], but the value returned by a
    [toString] method is handed on as it is, so the result is a value. *)
Definition extractErrorString (h : Heap) (error : Value) : Outcome Value :=
  if is_nullish error then Return (VString "")
  else if JSType_eqb (typeof h error) TString then Return error
  else
    let! found :=
      (if truthy error && JSType_eqb (typeof h error) TObject then
         let! message := get h error "message" in
         if truthy message && JSType_eqb (typeof h message) TString
         then Return (Some message)
         else
           let! cm := cause_message h error in
           if truthy cm && JSType_eqb (typeof h cm) TString
           then Return (Some cm)
           else
             let! toString := get h error "toString" in
             if JSType_eqb (typeof h toString) TFunction then
               let! stringified := call h toString error in
               if negb (is_string_value stringified "[object Object]")
               then Return (Some stringified)
               else Return None
             else Return None
       else Return None) in
    match found with
    | Some v => Return v
    | None =>
        try_catch (let! s := String_ h error in Return (VString s)) (VString "")
    end.

Definition extractErrorCode_patterns : list Regex.RegExp :=
  [ Regex.literal "MoveAbort\([^,)]*,\s*(\d+)\)" false;
    Regex.literal "MoveAbort\([^)]+\)\s*,?\s*(\d+)\)" false;
    Regex.literal "MoveAbort.*?(\d+)\)" false;
    Regex.literal "}, (\d+)\) in command" false;
    Regex.literal "abort_code:\s*(\d+)" true;
    Regex.literal "error_code:\s*(\d+)" true;
    Regex.literal "CetusError\((\d+)\)" false;
    Regex.literal "PoolCreationError\((\d+)\)" false;
    Regex.literal "InsufficientLiquidity\((\d+)\)" false;
    Regex.literal "LaunchpadError\((\d+)\)" false;
    Regex.literal "Error\s*Code\s*(\d+)" true;
    Regex.literal "ErrorCode:?\s*(\d+)" true;
    Regex.literal "code[:\s]*(\d+)" true;
    Regex.literal "error[:\s]*(\d+)" true;
    Regex.literal "with\s+code\s+(\d+)" true;
    Regex.literal "error\s+(\d+)" true ].

(** The loop of [extractErrorCode] over the remaining patterns. *)
Fixpoint first_code (patterns : list Regex.RegExp) (errorString : string) : option Z :=
  match patterns with
  | [] => None
  | pattern :: rest =>
      let next := first_code rest errorString in
      match Regex.exec pattern errorString with
      | Some m =>
          match truthy_message (Regex.capture m 1) with
          | Some text =>
              match Str.parseInt text with
              | Some code => if 0 <=? code then Some code else next
              | None => next
              end
          | None => next
          end
      | None => next
      end
  end.

Definition extractErrorCode (errorString : string) : option Z :=
  first_code extractErrorCode_patterns errorString.

Definition categorizeError (errorCode : Z) (errorString : string) : Category :=
  if (1000 <=? errorCode) && (errorCode <=? 1999) then move_abort
  else if (2000 <=? errorCode) && (errorCode <=? 2999) then sui_system
  else if 3000 <=? errorCode then sui_system
  else if (1 <=? errorCode) && (errorCode <=? 999) then move_abort
  else if Str.includes errorString "Transaction" || Str.includes errorString "Signature"
  then transaction
  else move_abort.

(** The receiver of [errorString.match(...)]: a string, or else the
    call fails. *)
Definition match_receiver (h : Heap) (errorString : Value) : Outcome string :=
  match errorString with
  | VString s => Return s
  | VUndefined | VNull => Raise (TypeError "Cannot read properties of null or undefined")
  | VObject _ =>
      let! m := get h errorString "match" in
      if is_callable h m then Beyond
      else Raise (TypeError "errorString.match is not a function")
  | _ => Raise (TypeError "errorString.match is not a function")
  end.

Definition known_code_result (errorCode : Z) (message errorString : string) (error : Value)
  : ParsedError.t :=
  ParsedError.Make (Some errorCode) None
    ("Error Code " ++ Number_toString errorCode ++ ": " ++ message)
    true (categorizeError errorCode errorString) error.

Definition unknown_code_result (errorCode : Z) (error : Value) : ParsedError.t :=
  ParsedError.Make (Some errorCode) None
    ("Move Error Code " ++ Number_toString errorCode ++ ": Unknown error occurred")
    false move_abort error.

Definition fallback_result (errorString : string) (error : Value) : ParsedError.t :=
  ParsedError.Make None None
    (if String.eqb errorString "" then "An unexpected error occurred" else errorString)
    false unknown error.

(** The branch of [parseError] taken when a code has been extracted. *)
Definition code_result (d : SuiClientErrorDecoder) (errorCode : Z) (errorString : string)
    (error : Value) : ParsedError.t :=
  match truthy_message (errorCodes d !! errorCode) with
  | Some message => known_code_result errorCode message errorString error
  | None => unknown_code_result errorCode error
  end.

Definition parseError (d : SuiClientErrorDecoder) (h : Heap) (error : Value)
  : Outcome ParsedError.t :=
  let! errorValue := extractErrorString h error in
  let! errorString := match_receiver h errorValue in
  (* 1. Check for numeric error codes first *)
  match extractErrorCode errorString with
  | Some errorCode => Return (code_result d errorCode errorString error)
  | None =>
      (* 2. Check for string-based patterns *)
      let! patternMatch := findPatternMatch d errorString in
      match patternMatch with
      | Some p => Return (with_originalError p error)
      | None =>
          (* 3. Fallback to a generic unknown error *)
          Return (fallback_result errorString error)
      end
  end.

Definition decodeError (d : SuiClientErrorDecoder) (h : Heap) (error : Value)
  : Outcome string :=
  let! r := parseError d h error in Return (ParsedError.message r).

(** The two private getters hand out the stored tables themselves. *)
Definition getCustomErrorCodes (d : SuiClientErrorDecoder) : ErrorCodeMap :=
  customErrorCodes d.

Definition getCustomTransactionErrors (d : SuiClientErrorDecoder) : TransactionErrorMap :=
  customTransactionErrors d.

(** A key of a code map that is an array index; such keys are enumerated
    in ascending order. *)
Definition is_index_key (k : Z) : bool := (0 <=? k) && (k <? 4294967295).

Section Defaults.

Variable DEFAULT_SUI_ERROR_CODES : ErrorCodeMap.
Variable TRANSACTION_ERROR_CODES : TransactionErrorMap.

(** [getOverriddenCodes]: the loop runs over [Object.keys] of the custom
    table and tests each key against the built-in table.  Keys that are
    array indices come in ascending order; a table with another kind of
    key (a negative one, say) is enumerated in creation order, which a
    finite map does not record, so the run is then outside the model. *)
Definition getOverriddenCodes (d : SuiClientErrorDecoder) : Outcome (list Z) :=
  let keys := merge_sort Z.le (map fst (map_to_list (customErrorCodes d))) in
  if forallb is_index_key keys then
    Return (List.filter
              (fun numCode =>
                 match truthy_message (DEFAULT_SUI_ERROR_CODES !! numCode) with
                 | Some _ => true
                 | None => false
                 end)
              keys)
  else Beyond.

(** [decodeSuiError]; [defaultDecoder] is the state of the exported
    default instance at the time of the call, and an absent argument is
    [None]. *)
Definition decodeSuiError (defaultDecoder : SuiClientErrorDecoder) (h : Heap) (error : Value)
    (customCodes : option ErrorCodeMap)
    (customTransactionErrors : option TransactionErrorMap) : Outcome string :=
  match customCodes, customTransactionErrors with
  | None, None => decodeError defaultDecoder h error
  | _, _ =>
      let decoder :=
        new DEFAULT_SUI_ERROR_CODES TRANSACTION_ERROR_CODES
            (Options customCodes customTransactionErrors None) in
      decodeError decoder h error
  end.

End Defaults.

(* ===================================================================== *)
(** ** The preceding revision of the decoder

    The sources also hold the revision that preceded the one above.  It
    keeps no separate custom tables (it recomputes them as "entries that
    the built-in tables lack"), checks the symbolic types before the
    numeric code, and computes the messages of the content patterns at
    each call.  It is embedded here where the properties refer to it; it
    is followed on inputs that normalise to a string. *)
(* ===================================================================== *)

Module Earlier.

Record SuiClientErrorDecoder : Type := Decoder {
  errorCodes : ErrorCodeMap;
  transactionErrors : TransactionErrorMap
}.

Section Construction.

Variable DEFAULT_SUI_ERROR_CODES : ErrorCodeMap.
Variable TRANSACTION_ERROR_CODES : TransactionErrorMap.

Definition new (options : SuiErrorDecoderOptions) : SuiClientErrorDecoder :=
  let customErrorCodes := default ∅ (opt_customErrorCodes options) in
  let customTransactionErrors := default [] (opt_customTransactionErrors options) in
  let includeDefaults := default true (opt_includeDefaults options) in
  Decoder
    (if includeDefaults
     then spread_codes DEFAULT_SUI_ERROR_CODES customErrorCodes
     else customErrorCodes)
    (if includeDefaults
     then TxMap.spread TRANSACTION_ERROR_CODES customTransactionErrors
     else customTransactionErrors).

(** The entries of the merged table whose key has no (truthy) built-in
    message. *)
Definition getCustomErrorCodes (d : SuiClientErrorDecoder) : ErrorCodeMap :=
  filter (fun kv => truthy_message (DEFAULT_SUI_ERROR_CODES !! fst kv) = None)
         (errorCodes d).

Definition updateDefaultErrorCodes (d : SuiClientErrorDecoder) (defaultCodes : ErrorCodeMap)
  : SuiClientErrorDecoder :=
  let customCodes := getCustomErrorCodes d in
  Decoder (spread_codes defaultCodes customCodes) (transactionErrors d).

End Construction.

Definition addErrorCodes (d : SuiClientErrorDecoder) (codes : ErrorCodeMap)
  : SuiClientErrorDecoder :=
  Decoder (spread_codes (errorCodes d) codes) (transactionErrors d).

Definition addTransactionErrors (d : SuiClientErrorDecoder) (errs : TransactionErrorMap)
  : SuiClientErrorDecoder :=
  Decoder (errorCodes d) (TxMap.spread (transactionErrors d) errs).

(** [this.transactionErrors.X || fallback] *)
Definition or_fallback (v : option string) (fallback : string) : string :=
  match truthy_message v with Some m => m | None => fallback end.

(** The table built inside [checkTransactionErrors] at each call. *)
Definition transactionPatterns (t : TransactionErrorMap)
  : list (Regex.RegExp * string * string) :=
  let entry (src ty fallback : string) :=
    (Regex.literal src true, ty, or_fallback (TxMap.lookup ty t) fallback) in
  [ entry "insufficient.*gas" "INSUFFICIENT_GAS" "Insufficient gas for transaction";
    entry "invalid.*gas.*object" "INVALID_GAS_OBJECT" "Invalid gas object";
    entry "object.*too.*big" "OBJECT_TOO_BIG" "Object is too large";
    entry "package.*too.*big" "PACKAGE_TOO_BIG" "Package is too large";
    entry "circular.*ownership" "CIRCULAR_OBJECT_OWNERSHIP"
          "Circular object ownership detected";
    entry "insufficient.*coin.*balance" "INSUFFICIENT_COIN_BALANCE"
          "Insufficient coin balance";
    entry "function.*not.*found" "FUNCTION_NOT_FOUND" "Function not found";
    entry "move.*abort" "MOVE_ABORT" "Move runtime abort" ].

Definition transaction_message (errorType message : string) : string :=
  "Transaction Error (" ++ errorType ++ "): " ++ message.

Fixpoint scan_exact (entries : list (string * string)) (errorString : string)
  : option (string * string) :=
  match entries with
  | [] => None
  | (errorType, message) :: rest =>
      if Str.includes errorString errorType
      then Some (errorType, transaction_message errorType message)
      else scan_exact rest errorString
  end.

Fixpoint scan_patterns (table : list (Regex.RegExp * string * string)) (errorString : string)
  : option (string * string) :=
  match table with
  | [] => None
  | (pattern, errorType, message) :: rest =>
      if Regex.test pattern errorString
      then Some (errorType, transaction_message errorType message)
      else scan_patterns rest errorString
  end.

(** The result is the pair of [errorType] and [message]. *)
Definition checkTransactionErrors (d : SuiClientErrorDecoder) (errorString : string)
  : option (string * string) :=
  match scan_exact (TxMap.entries (transactionErrors d)) errorString with
  | Some r => Some r
  | None => scan_patterns (transactionPatterns (transactionErrors d)) errorString
  end.

Definition extractErrorCode_patterns : list Regex.RegExp :=
  [ Regex.literal "MoveAbort\([^,]+,\s*(\d+)\)" false;
    Regex.literal "MoveAbort\([^)]+\)\s*,\s*(\d+)\)" false;
    Regex.literal "}, (\d+)\) in command" false;
    Regex.literal "abort_code:\s*(\d+)" false;
    Regex.literal "error_code:\s*(\d+)" false;
    Regex.literal "CetusError\((\d+)\)" false;
    Regex.literal "PoolCreationError\((\d+)\)" false;
    Regex.literal "InsufficientLiquidity\((\d+)\)" false;
    Regex.literal "LaunchpadError\((\d+)\)" false;
    Regex.literal "Error\s*Code\s*(\d+)" true;
    Regex.literal "ErrorCode:?\s*(\d+)" true;
    Regex.literal "code[:\s]*(\d+)" true;
    Regex.literal "error[:\s]*(\d+)" true ].

Fixpoint first_code (patterns : list Regex.RegExp) (errorString : string) : option Z :=
  match patterns with
  | [] => None
  | pattern :: rest =>
      match Regex.exec pattern errorString with
      | Some m =>
          match Str.parseInt (default "undefined" (Regex.capture m 1)) with
          | Some code => Some code
          | None => first_code rest errorString
          end
      | None => first_code rest errorString
      end
  end.

Definition extractErrorCode (errorString : string) : option Z :=
  first_code extractErrorCode_patterns errorString.

Definition namedErrors : list (Regex.RegExp * string) :=
  [ (Regex.literal "EInvalidTickRange" false, "Invalid tick range for liquidity pool");
    (Regex.literal "EInvalidLiquidity" false, "Invalid liquidity amount");
    (Regex.literal "EInvalidTickSpacing" false,
     "Invalid tick spacing - must be 100, 500, or 3000");
    (Regex.literal "ETickNotAligned" false, "Tick not aligned with tick spacing");
    (Regex.literal "EInsufficientLiquidity" false,
     "Insufficient liquidity for pool creation");
    (Regex.literal "EInvalidPrice" false, "Invalid price for pool creation");
    (Regex.literal "EInvalidPhase" false, "Invalid phase for operation");
    (Regex.literal "EUnauthorized" false, "Unauthorized access") ].

Fixpoint checkNamedErrors_in (table : list (Regex.RegExp * string)) (errorString : string)
  : option (string * Category) :=
  match table with
  | [] => None
  | (pattern, message) :: rest =>
      if Regex.test pattern errorString then Some ("Error: " ++ message, move_abort)
      else checkNamedErrors_in rest errorString
  end.

Definition checkNamedErrors (errorString : string) : option (string * Category) :=
  checkNamedErrors_in namedErrors errorString.

Definition systemErrors : list (Regex.RegExp * string * Category) :=
  [ (Regex.literal "InsufficientGas" false,
     "Insufficient gas for transaction. Please increase gas budget.", sui_system);
    (Regex.literal "ObjectNotFound" false,
     "Required object not found. Please check object IDs.", sui_system);
    (Regex.literal "InvalidObjectOwner" false,
     "Invalid object ownership. Please verify permissions.", sui_system);
    (Regex.literal "PackageNotFound" false,
     "Smart contract package not found. Please check package deployment.", sui_system);
    (Regex.literal "TransactionExpired" false,
     "Transaction expired. Please try again.", transaction);
    (Regex.literal "InvalidSignature" false,
     "Invalid transaction signature.", transaction) ].

Fixpoint checkSystemErrors_in (table : list (Regex.RegExp * string * Category))
    (errorString : string) : option (string * Category) :=
  match table with
  | [] => None
  | (pattern, message, category) :: rest =>
      if Regex.test pattern errorString then Some (message, category)
      else checkSystemErrors_in rest errorString
  end.

Definition checkSystemErrors (errorString : string) : option (string * Category) :=
  checkSystemErrors_in systemErrors errorString.

(** [parseError] on an input that is already a string (for which
    [extractErrorString] is the identity). *)
Definition parseError (d : SuiClientErrorDecoder) (errorString : string) : ParsedError.t :=
  let error := VString errorString in
  match checkTransactionErrors d errorString with
  | Some (errorType, message) =>
      ParsedError.Make None (Some errorType) message true transaction error
  | None =>
      match extractErrorCode errorString with
      | Some errorCode =>
          match truthy_message (errorCodes d !! errorCode) with
          | Some message => known_code_result errorCode message errorString error
          | None => unknown_code_result errorCode error
          end
      | None =>
          match checkNamedErrors errorString with
          | Some (message, category) =>
              ParsedError.Make None None message true category error
          | None =>
              match checkSystemErrors errorString with
              | Some (message, category) =>
                  ParsedError.Make None None message true category error
              | None => fallback_result errorString error
              end
          end
      end
  end.

End Earlier.

(* ===================================================================== *)
(** ** Vocabulary of the properties

    Sample decoders and stores for the concrete instances, and the
    predicates the statements are phrased with. *)
(* ===================================================================== *)

Module Sample.

(** A store in which no object has been given properties. *)
Definition empty_heap : Heap := fun _ => MkObject ClassObject [].

(** A store with the shapes of the edge-case inputs: at 0 an object
    that holds itself ([o.self = o]) next to a [message]; at 1 the empty
    array; at 2 the empty object; at 3 an [Error] whose [cause] is the
    error itself; at 4 an object without prototype. *)
Definition edge_heap : Heap := fun l =>
  match l with
  | 0%nat => MkObject ClassObject
               [(KString "message", Data (VString "Circular error"));
                (KString "self", Data (VObject 0%nat))]
  | 1%nat => MkObject (ClassArray []) []
  | 2%nat => MkObject ClassObject []
  | 3%nat => MkObject ClassError
               [(KString "message", Data (VString "MoveAbort(0x123, 7) in command"));
                (KString "cause", Data (VObject 3%nat))]
  | _ => MkObject ClassNullProto []
  end.

(** [{ customErrorCodes: codes, customTransactionErrors: errs,
      includeDefaults: false }] *)
Definition custom_only (codes : ErrorCodeMap) (errs : TransactionErrorMap)
  : SuiErrorDecoderOptions :=
  Options (Some codes) (Some errs) (Some false).

(** A decoder built without the built-in tables; its state does not
    depend on their contents. *)
Definition bare (codes : ErrorCodeMap) (errs : TransactionErrorMap) : SuiClientErrorDecoder :=
  new ∅ [] (custom_only codes errs).

End Sample.

(** The source text of every pattern literal of the decoder. *)
Definition literal_sources : list string :=
  [ "MoveAbort\([^,)]*,\s*(\d+)\)"; "MoveAbort\([^)]+\)\s*,?\s*(\d+)\)";
    "MoveAbort.*?(\d+)\)"; "}, (\d+)\) in command"; "abort_code:\s*(\d+)";
    "error_code:\s*(\d+)"; "CetusError\((\d+)\)"; "PoolCreationError\((\d+)\)";
    "InsufficientLiquidity\((\d+)\)"; "LaunchpadError\((\d+)\)";
    "Error\s*Code\s*(\d+)"; "ErrorCode:?\s*(\d+)"; "code[:\s]*(\d+)";
    "error[:\s]*(\d+)"; "with\s+code\s+(\d+)"; "error\s+(\d+)";
    "InsufficientGas"; "ObjectNotFound"; "InvalidObjectOwner"; "PackageNotFound";
    "TransactionExpired"; "InvalidSignature"; "Unexpected deserialization error";
    "insufficient.*gas"; "invalid.*gas.*object"; "object.*too.*big";
    "package.*too.*big"; "circular.*ownership"; "insufficient.*coin.*balance";
    "function.*not.*found"; "move.*abort";
    "EInvalidTickRange"; "EInvalidLiquidity"; "EInvalidTickSpacing";
    "ETickNotAligned"; "EInsufficientLiquidity"; "EInvalidPrice"; "EInvalidPhase";
    "EUnauthorized" ].

Definition parses (src : string) : bool :=
  match Regex.parse src with Regex.POk _ => true | _ => false end.

(** What the three lookups answer for a code whose registered message is
    the empty string. *)
Definition empty_message_behaviour (d : SuiClientErrorDecoder) (N : Z) : Prop :=
  isKnownErrorCode d N = true
  /\ getErrorMessage d N = None
  /\ forall h error s,
       extractErrorString h error = Return (VString s) ->
       extractErrorCode s = Some N ->
       parseError d h error = Return (unknown_code_result N error).

(** A refresh of one of the two default tables. *)
Inductive Refresh : Type :=
| RefreshCodes (defaultCodes : ErrorCodeMap)
| RefreshTransactions (defaultTransactionErrors : TransactionErrorMap).

Definition refresh (d : SuiClientErrorDecoder) (r : Refresh) : SuiClientErrorDecoder :=
  match r with
  | RefreshCodes c => updateDefaultErrorCodes d c
  | RefreshTransactions t => updateDefaultTransactionErrors d t
  end.

Definition custom_code_held (k : Z) (m : string) (d : SuiClientErrorDecoder) : Prop :=
  customErrorCodes d !! k = Some m /\ errorCodes d !! k = Some m.

Definition custom_type_held (ty m : string) (d : SuiClientErrorDecoder) : Prop :=
  TxMap.wf (customTransactionErrors d)
  /\ TxMap.lookup ty (customTransactionErrors d) = Some m
  /\ TxMap.wf (transactionErrors d)
  /\ TxMap.lookup ty (transactionErrors d) = Some m.

(** What the lookups of a code answer when the table maps it to the
    non-empty message [m]. *)
Definition code_resolves_to (k : Z) (m : string) (d : SuiClientErrorDecoder) : Prop :=
  getErrorCodes d !! k = Some m
  /\ getErrorMessage d k = Some m
  /\ forall h error s,
       extractErrorString h error = Return (VString s) ->
       extractErrorCode s = Some k ->
       parseError d h error = Return (known_code_result k m s error).

Definition type_resolves_to (ty m : string) (d : SuiClientErrorDecoder) : Prop :=
  TxMap.lookup ty (getTransactionErrors d) = Some m
  /\ getTransactionErrorMessage d ty = Return (Some m).

(** A call of one of the four methods that change the registry. *)
Inductive RegistryCall : Type :=
| CallAddErrorCodes (codes : ErrorCodeMap)
| CallAddTransactionErrors (errs : TransactionErrorMap)
| CallUpdateDefaultErrorCodes (codes : ErrorCodeMap)
| CallUpdateDefaultTransactionErrors (errs : TransactionErrorMap).

Definition perform (d : SuiClientErrorDecoder) (c : RegistryCall) : SuiClientErrorDecoder :=
  match c with
  | CallAddErrorCodes codes => addErrorCodes d codes
  | CallAddTransactionErrors errs => addTransactionErrors d errs
  | CallUpdateDefaultErrorCodes codes => updateDefaultErrorCodes d codes
  | CallUpdateDefaultTransactionErrors errs => updateDefaultTransactionErrors d errs
  end.

Module Hostile.

(** [{ toString() { throw "boom" } }] at location 0,
    [{ toString() { return 42 } }] at location 2, and an object whose
    [message] is a getter that throws at location 4. *)
Definition heap : Heap := fun l =>
  match l with
  | 0%nat => MkObject ClassObject [(KString "toString", Data (VObject 1%nat))]
  | 1%nat => MkObject (ClassFunction (Raise (Thrown (VString "boom")))) []
  | 2%nat => MkObject ClassObject [(KString "toString", Data (VObject 3%nat))]
  | 3%nat => MkObject (ClassFunction (Return (VNumber 42))) []
  | 4%nat => MkObject ClassObject
               [(KString "message", Accessor (Raise (Thrown (VString "boom"))))]
  | _ => MkObject ClassObject []
  end.

End Hostile.

Module Token.

Import Chars.

(** A key made of letters, digits and underscores only. *)
Definition word_token (k : string) : bool :=
  forallb is_word (list_ascii_of_string k).

(** The next character neither is nor starts a quantifier. *)
Definition plain_head (s : list ascii) : bool :=
  match s with
  | c :: _ => is_word c || Ascii.eqb c "\"
  | [] => true
  end.

Definition boundary : list ascii := ["\"; "b"]%char.

End Token.

Module Quiet.

Import Token.

(** Every registered symbolic type is a word token. *)
Definition safe_registry (d : SuiClientErrorDecoder) : bool :=
  forallb (fun kv => word_token (fst kv)) (transactionErrors d).

Definition is_data (p : Property) : bool :=
  match p with Data _ => true | Accessor _ => false end.

Definition has_own (k : Key) (o : Object) : bool :=
  match own_property k (obj_props o) with Some _ => true | None => false end.

Definition quiet_class (c : ObjClass) : bool :=
  match c with
  | ClassObject | ClassError | ClassNullProto => true
  | ClassArray elements => forallb (fun v => negb (is_object v)) elements
  | ClassFunction _ => false
  end.

(** An object that is not a function, whose own properties are plain
    data, that does not redefine the conversion methods, and whose
    [message], if it has one, is a primitive. *)
Definition quiet_object (o : Object) : bool :=
  quiet_class (obj_class o)
  && forallb (fun kp => is_data (snd kp)) (obj_props o)
  && negb (has_own "toString" o) && negb (has_own "valueOf" o)
  && negb (has_own "join" o) && negb (has_own "name" o)
  && negb (has_own KToPrimitive o)
  && match own_property "message" (obj_props o) with
     | Some (Data v) => negb (is_object v)
     | _ => true
     end.

(** The values the specification lists: [null], [undefined], strings,
    numbers, booleans, and quiet objects (arrays of primitives
    included) whose [cause], when it is an object, has a plain data
    [message] or none.  Properties may hold any location, the object's
    own included. *)
Definition quiet (h : Heap) (v : Value) : bool :=
  match v with
  | VObject l =>
      quiet_object (h l)
      && match own_property "cause" (obj_props (h l)) with
         | Some (Data (VObject l')) =>
             match own_property "message" (obj_props (h l')) with
             | Some (Accessor _) => false
             | _ => true
             end
         | _ => true
         end
  | VBuiltin _ => false
  | _ => true
  end.

(** The part of [extractErrorString] after the [message] and [cause]
    attempts. *)
Definition by_conversion (h : Heap) (error : Value) : Outcome Value :=
  let! found :=
    (let! toString := get h error "toString" in
     if JSType_eqb (typeof h toString) TFunction then
       let! stringified := call h toString error in
       if negb (is_string_value stringified "[object Object]")
       then Return (Some stringified)
       else Return None
     else Return None) in
  match found with
  | Some v => Return v
  | None => try_catch (let! s := String_ h error in Return (VString s)) (VString "")
  end.

End Quiet.

(* ===================================================================== *)
(** ** Properties *)
(* ===================================================================== *)

(** *** The pattern literals of the source lie in the parsed fragment *)

Lemma literals_parse : forallb parses literal_sources = true.
Proof. vm_compute. reflexivity. Qed.

(** *** Registry lookups *)

Lemma spread_codes_lookup (a b : ErrorCodeMap) (k : Z) :
  spread_codes a b !! k = match b !! k with Some v => Some v | None => a !! k end.
Proof.
  unfold spread_codes. destruct (b !! k) as [v|] eqn:Hb.
  - by apply lookup_union_Some_l.
  - by rewrite lookup_union_r.
Qed.

Lemma spread_codes_custom_wins (a b : ErrorCodeMap) (k : Z) (m : string) :
  b !! k = Some m -> spread_codes a b !! k = Some m.
Proof. intros H. by rewrite spread_codes_lookup, H. Qed.

Lemma spread_codes_empty (m : ErrorCodeMap) : spread_codes ∅ m = m.
Proof. unfold spread_codes. apply (right_id_L ∅ (∪)). Qed.

Lemma getErrorCodes_eq d : getErrorCodes d = errorCodes d.
Proof. apply spread_codes_empty. Qed.

Module TxMapFacts.

Import TxMap.

Lemma lookup_set (k k' v : string) (m : TransactionErrorMap) :
  lookup k (set k' v m) = if String.eqb k k' then Some v else lookup k m.
Proof.
  induction m as [|[k0 v0] m IH]; simpl.
  - destruct (String.eqb k k'); reflexivity.
  - destruct (String.eqb k' k0) eqn:E; simpl.
    + apply String.eqb_eq in E. subst k0.
      destruct (String.eqb k k'); reflexivity.
    + destruct (String.eqb k k0) eqn:E0.
      * apply String.eqb_eq in E0. subst k0.
        rewrite String.eqb_sym in E. rewrite E. reflexivity.
      * exact IH.
Qed.

Lemma lookup_assign_None (k : string) (b a : TransactionErrorMap) :
  lookup k b = None -> lookup k (assign a b) = lookup k a.
Proof.
  unfold assign. revert a.
  induction b as [|[k0 v0] b IH]; intros a H; simpl in *.
  - reflexivity.
  - destruct (String.eqb k k0) eqn:E; [discriminate|].
    rewrite (IH _ H), lookup_set. simpl. rewrite E. reflexivity.
Qed.

Lemma lookup_not_key (k : string) (m : TransactionErrorMap) :
  ~ In k (map fst m) -> lookup k m = None.
Proof.
  induction m as [|[k0 v0] m IH]; simpl; intros H.
  - reflexivity.
  - destruct (String.eqb k k0) eqn:E.
    + apply String.eqb_eq in E. subst. tauto.
    + apply IH. tauto.
Qed.

Lemma lookup_assign_Some (k v : string) (b a : TransactionErrorMap) :
  wf b -> lookup k b = Some v -> lookup k (assign a b) = Some v.
Proof.
  unfold assign, wf. revert a.
  induction b as [|[k0 v0] b IH]; intros a Hnd H; simpl in *.
  - discriminate.
  - inversion Hnd as [|? ? Hnotin Hnd']; subst.
    destruct (String.eqb k k0) eqn:E.
    + apply String.eqb_eq in E. subst k0. injection H as ->.
      pose proof (lookup_assign_None k b (set k v a) (lookup_not_key _ _ Hnotin)) as Hs.
      unfold assign in Hs. rewrite Hs, lookup_set, String.eqb_refl. reflexivity.
    + apply IH; assumption.
Qed.

Lemma keys_set (k v : string) (m : TransactionErrorMap) :
  map fst (set k v m) =
    match lookup k m with
    | Some _ => map fst m
    | None => List.app (map fst m) [k]
    end.
Proof.
  induction m as [|[k0 v0] m IH]; simpl; [reflexivity|].
  destruct (String.eqb k k0) eqn:E; simpl; [reflexivity|].
  rewrite IH. destruct (lookup k m); reflexivity.
Qed.

Lemma lookup_None_not_key (k : string) (m : TransactionErrorMap) :
  lookup k m = None -> ~ In k (map fst m).
Proof.
  induction m as [|[k0 v0] m IH]; simpl; intros H; [tauto|].
  destruct (String.eqb k k0) eqn:E; [discriminate|].
  apply String.eqb_neq in E. intros [->|Hin]; [congruence | exact (IH H Hin)].
Qed.

Lemma wf_set (k v : string) (m : TransactionErrorMap) : wf m -> wf (set k v m).
Proof.
  unfold wf. intros H. rewrite keys_set.
  destruct (lookup k m) eqn:E; [exact H|].
  apply List.NoDup_app; [exact H | |].
  - constructor; [simpl; tauto | constructor].
  - intros x Hx [<-|[]]. exact (lookup_None_not_key _ _ E Hx).
Qed.

Lemma wf_assign (a b : TransactionErrorMap) : wf a -> wf (assign a b).
Proof.
  unfold assign. revert a.
  induction b as [|[k0 v0] b IH]; intros a H; simpl; [exact H|].
  apply IH, wf_set, H.
Qed.

(** The result of a spread is an object, whatever the arguments. *)
Lemma wf_spread (a b : TransactionErrorMap) : wf (spread a b).
Proof. apply wf_assign, wf_assign. constructor. Qed.

Lemma assign_app (a b : TransactionErrorMap) :
  wf (List.app a b) -> assign a b = List.app a b.
Proof.
  unfold assign, wf. revert a.
  induction b as [|[k0 v0] b IH]; intros a Hnd; simpl.
  - by rewrite List.app_nil_r.
  - assert (Hset : set k0 v0 a = List.app a [(k0, v0)]).
    { assert (Hk : ~ In k0 (map fst a)).
      { rewrite List.map_app in Hnd. simpl in Hnd.
        apply List.NoDup_remove_2 in Hnd. rewrite List.in_app_iff in Hnd. tauto. }
      clear -Hk. induction a as [|[k1 v1] a IHa]; simpl in *; [reflexivity|].
      destruct (String.eqb k0 k1) eqn:E.
      - apply String.eqb_eq in E. subst. tauto.
      - f_equal. apply IHa. tauto. }
    rewrite Hset, IH; rewrite <- List.app_assoc; simpl; [reflexivity | exact Hnd].
Qed.

(** Copying an object yields the same entries in the same order. *)
Lemma spread_nil (m : TransactionErrorMap) : wf m -> spread [] m = m.
Proof. intros H. unfold spread. simpl. exact (assign_app [] m H). Qed.

Lemma lookup_spread_Some (k v : string) (a b : TransactionErrorMap) :
  wf b -> lookup k b = Some v -> lookup k (spread a b) = Some v.
Proof. intros Hwf H. unfold spread. by apply lookup_assign_Some. Qed.

Lemma lookup_spread_None (k : string) (a b : TransactionErrorMap) :
  wf a -> lookup k b = None -> lookup k (spread a b) = lookup k a.
Proof.
  intros Hwf H. unfold spread. rewrite (lookup_assign_None k b _ H).
  change (assign [] a) with (spread [] a). by rewrite spread_nil.
Qed.

End TxMapFacts.

(** *** The shape of [parseError] *)

Lemma parseError_with_code d h error s c :
  extractErrorString h error = Return (VString s) ->
  extractErrorCode s = Some c ->
  parseError d h error = Return (code_result d c s error).
Proof.
  intros Hs Hc. unfold parseError. rewrite Hs. simpl. rewrite Hc. reflexivity.
Qed.

Lemma parseError_without_code d h error s :
  extractErrorString h error = Return (VString s) ->
  extractErrorCode s = None ->
  parseError d h error =
    (let! patternMatch := findPatternMatch d s in
     match patternMatch with
     | Some p => Return (with_originalError p error)
     | None => Return (fallback_result s error)
     end).
Proof.
  intros Hs Hc. unfold parseError. rewrite Hs. simpl. rewrite Hc. reflexivity.
Qed.

Lemma extractErrorString_string h s :
  extractErrorString h (VString s) = Return (VString s).
Proof. reflexivity. Qed.

Lemma first_code_nonneg ps s c : first_code ps s = Some c -> 0 <= c.
Proof.
  induction ps as [|p ps IH]; simpl; [discriminate|].
  destruct (Regex.exec p s) as [m|]; [|exact IH].
  destruct (truthy_message (Regex.capture m 1)) as [text|]; [|exact IH].
  destruct (Str.parseInt text) as [code|]; [|exact IH].
  destruct (0 <=? code) eqn:E; [|exact IH].
  intros [= <-]. lia.
Qed.

(** [extractErrorCode] never returns a negative number. *)
Lemma extractErrorCode_nonneg s c : extractErrorCode s = Some c -> 0 <= c.
Proof. apply first_code_nonneg. Qed.

(** *** Substring search *)

Lemma append_assoc (a b c : string) : (a ++ b) ++ c = a ++ (b ++ c).
Proof.
  induction a as [|x a IH]; [reflexivity|].
  change (String x ((a ++ b) ++ c) = String x (a ++ (b ++ c))).
  f_equal. exact IH.
Qed.

Lemma prefix_append (p s : string) : String.prefix p (p ++ s) = true.
Proof.
  induction p as [|c p IH]; simpl.
  - destruct s; reflexivity.
  - destruct (Ascii.ascii_dec c c) as [_|N]; [exact IH | congruence].
Qed.

Lemma includes_prefix (s sub : string) :
  String.prefix sub s = true -> Str.includes s sub = true.
Proof. intros H. destruct s; cbn [Str.includes]; rewrite H; reflexivity. Qed.

Lemma includes_append (a sub b : string) : Str.includes (a ++ sub ++ b) sub = true.
Proof.
  induction a as [|c a IH].
  - change ("" ++ sub ++ b) with (sub ++ b).
    apply includes_prefix, prefix_append.
  - change (String c a ++ sub ++ b) with (String c (a ++ sub ++ b)).
    cbn [Str.includes]. rewrite IH. destruct (String.prefix sub _); reflexivity.
Qed.

(** *** Precedence of the numeric code *)

(** C1: when the normalized string carries a code shape, [parseError]
    returns the numeric-code result whatever symbolic tokens the string
    contains and whatever the symbolic table and the pattern table hold;
    the pattern matcher decides the result only when no code is
    extracted. *)
Theorem C1_numeric_code_before_pattern_match :
  forall d h error s,
    extractErrorString h error = Return (VString s) ->
    (forall c, extractErrorCode s = Some c ->
       parseError d h error = Return (code_result d c s error)
       /\ forall d', errorCodes d' = errorCodes d ->
            parseError d' h error = parseError d h error)
    /\ (extractErrorCode s = None ->
        parseError d h error =
          (let! patternMatch := findPatternMatch d s in
           match patternMatch with
           | Some p => Return (with_originalError p error)
           | None => Return (fallback_result s error)
           end)).
Proof.
  intros d h error s Hs. split.
  - intros c Hc. split.
    + exact (parseError_with_code d h error s c Hs Hc).
    + intros d' Hd'.
      rewrite (parseError_with_code d h error s c Hs Hc).
      rewrite (parseError_with_code d' h error s c Hs Hc).
      unfold code_result. rewrite Hd'. reflexivity.
  - intros Hc. exact (parseError_without_code d h error s Hs Hc).
Qed.

(** The input of the specification's example, against a decoder that
    registers both the code and the symbolic type it mentions: the
    pattern matcher would report [INSUFFICIENT_GAS], and the result is
    the one for code 1001. *)
Lemma C1_example :
  let d := Sample.bare {[1001 := "Index out of bounds"]}
                       [("INSUFFICIENT_GAS", "Insufficient gas.")] in
  let s := "Transaction failed: INSUFFICIENT_GAS with MoveAbort code 1001" in
  findPatternMatch d s
  = Return (Some (MkPatternResult (Some "INSUFFICIENT_GAS")
                    "Transaction Error (INSUFFICIENT_GAS): Insufficient gas."
                    true transaction))
  /\ parseError d Sample.empty_heap (VString s)
     = Return (ParsedError.Make (Some 1001) None "Error Code 1001: Index out of bounds"
                                true move_abort (VString s)).
Proof.
  intros d s. split; [vm_compute; reflexivity|].
  destruct (C1_numeric_code_before_pattern_match d Sample.empty_heap (VString s) s
              eq_refl) as [Hcode _].
  destruct (Hcode 1001 ltac:(vm_compute; reflexivity)) as [Hp _].
  rewrite Hp. vm_compute. reflexivity.
Defined.

(** *** Unknown codes *)

Lemma unknown_message_includes (M : Z) :
  Str.includes ("Move Error Code " ++ Number_toString M ++ ": Unknown error occurred")
               "Unknown error occurred" = true.
Proof.
  assert (E : "Move Error Code " ++ Number_toString M ++ ": Unknown error occurred"
              = ("Move Error Code " ++ Number_toString M ++ ": ")
                  ++ "Unknown error occurred" ++ "").
  { rewrite !append_assoc. reflexivity. }
  rewrite E. apply includes_append.
Qed.

(** C7: an extracted code [M] that the merged code table does not hold
    yields [code = M], [isKnownError = false], category [move_abort], a
    message containing "Unknown error occurred", and the input as
    [originalError]. *)
Theorem C7_unregistered_code_result :
  forall d h error s M,
    extractErrorString h error = Return (VString s) ->
    extractErrorCode s = Some M ->
    errorCodes d !! M = None ->
    exists r,
      parseError d h error = Return r
      /\ ParsedError.code r = Some M
      /\ ParsedError.isKnownError r = false
      /\ ParsedError.category r = move_abort
      /\ ParsedError.message r
         = "Move Error Code " ++ Number_toString M ++ ": Unknown error occurred"
      /\ Str.includes (ParsedError.message r) "Unknown error occurred" = true
      /\ ParsedError.originalError r = error.
Proof.
  intros d h error s M Hs Hc Hm.
  exists (unknown_code_result M error).
  rewrite (parseError_with_code d h error s M Hs Hc).
  unfold code_result. rewrite Hm. simpl.
  repeat split; try reflexivity.
  apply unknown_message_includes.
Qed.

Lemma C7_example :
  exists r,
    parseError (Sample.bare ∅ []) Sample.empty_heap
               (VString "MoveAbort(address, 99999) in command 0") = Return r
    /\ ParsedError.code r = Some 99999
    /\ ParsedError.isKnownError r = false
    /\ ParsedError.category r = move_abort
    /\ ParsedError.message r = "Move Error Code 99999: Unknown error occurred".
Proof.
  destruct (C7_unregistered_code_result (Sample.bare ∅ []) Sample.empty_heap
              (VString "MoveAbort(address, 99999) in command 0")
              "MoveAbort(address, 99999) in command 0" 99999
              eq_refl ltac:(vm_compute; reflexivity) ltac:(vm_compute; reflexivity))
    as (r & Hr & Hc & Hk & Hcat & Hm & _ & _).
  exists r. repeat split; assumption.
Defined.

(** *** Construction without the built-in tables *)

(** C8: with [includeDefaults = false] the merged tables are exactly the
    custom ones, whatever the built-in tables hold; with only
    [{9999: "x"}] supplied, code 1000 is unknown and code 9999 is
    known. *)
Theorem C8_includeDefaults_false_excludes_defaults :
  forall (DEFAULTS : ErrorCodeMap) (TX_DEFAULTS : TransactionErrorMap),
    (forall codes errs,
       let d := new DEFAULTS TX_DEFAULTS (Options (Some codes) (Some errs) (Some false)) in
       errorCodes d = codes /\ transactionErrors d = errs)
    /\ (let d := new DEFAULTS TX_DEFAULTS
                     (Options (Some {[9999 := "x"]}) None (Some false)) in
        errorCodes d = {[9999 := "x"]}
        /\ transactionErrors d = []
        /\ isKnownErrorCode d 1000 = false
        /\ isKnownErrorCode d 9999 = true
        /\ forall errorType, TxMap.lookup errorType (transactionErrors d) = None).
Proof.
  intros DEFAULTS TX_DEFAULTS. split.
  - intros codes errs. split; reflexivity.
  - repeat split.
Qed.

(** *** Codes registered with an empty message *)

Lemma empty_message_lookup d N :
  errorCodes d !! N = Some "" -> empty_message_behaviour d N.
Proof.
  intros H. repeat split.
  - unfold isKnownErrorCode. rewrite H. reflexivity.
  - unfold getErrorMessage. rewrite H. reflexivity.
  - intros h error s Hs Hc.
    rewrite (parseError_with_code d h error s N Hs Hc).
    unfold code_result. rewrite H. reflexivity.
Qed.

Lemma new_custom_code (DEFAULTS : ErrorCodeMap) (TX_DEFAULTS : TransactionErrorMap)
    options codes k m :
  opt_customErrorCodes options = Some codes ->
  codes !! k = Some m ->
  errorCodes (new DEFAULTS TX_DEFAULTS options) !! k = Some m
  /\ customErrorCodes (new DEFAULTS TX_DEFAULTS options) !! k = Some m.
Proof.
  intros Ho Hk. unfold new. rewrite Ho. simpl.
  split; [|exact Hk].
  destruct (default true (opt_includeDefaults options)).
  - by apply spread_codes_custom_wins.
  - exact Hk.
Qed.

(** C9: a code [N] registered with the empty string, through the
    constructor or through [addErrorCodes], is known to
    [isKnownErrorCode], has no message for [getErrorMessage], and sends
    [parseError] into the unknown-code branch. *)
Theorem C9_empty_message_known_but_unresolved :
  forall (DEFAULTS : ErrorCodeMap) (TX_DEFAULTS : TransactionErrorMap) (N : Z),
    (forall options codes,
       opt_customErrorCodes options = Some codes ->
       codes !! N = Some "" ->
       empty_message_behaviour (new DEFAULTS TX_DEFAULTS options) N)
    /\ (forall d codes,
          codes !! N = Some "" ->
          empty_message_behaviour (addErrorCodes d codes) N).
Proof.
  intros DEFAULTS TX_DEFAULTS N. split.
  - intros options codes Ho Hk. apply empty_message_lookup.
    exact (proj1 (new_custom_code DEFAULTS TX_DEFAULTS options codes N "" Ho Hk)).
  - intros d codes Hk. apply empty_message_lookup.
    simpl. by apply spread_codes_custom_wins.
Qed.

Lemma C9_example :
  let d := addErrorCodes (Sample.bare {[7 := ""]} []) {[8 := ""]} in
  (isKnownErrorCode d 8 = true /\ getErrorMessage d 8 = None
   /\ parseError d Sample.empty_heap (VString "abort_code: 8")
      = Return (ParsedError.Make (Some 8) None
                  "Move Error Code 8: Unknown error occurred" false move_abort
                  (VString "abort_code: 8")))
  /\ isKnownErrorCode (Sample.bare {[7 := ""]} []) 7 = true
  /\ getErrorMessage (Sample.bare {[7 := ""]} []) 7 = None.
Proof.
  intros d.
  destruct (C9_empty_message_known_but_unresolved ∅ [] 8) as [_ Hadd].
  destruct (C9_empty_message_known_but_unresolved ∅ [] 7) as [Hnew _].
  destruct (Hadd (Sample.bare {[7 := ""]} []) ({[8 := ""]} : gmap Z string)
                 (lookup_singleton_eq 8 "")) as (Hk & Hm & Hp).
  destruct (Hnew (Sample.custom_only {[7 := ""]} []) ({[7 := ""]} : gmap Z string)
                 eq_refl (lookup_singleton_eq 7 "")) as (Hk' & Hm' & _).
  split; [split; [exact Hk | split; [exact Hm |]] | split; [exact Hk' | exact Hm']].
  exact (Hp Sample.empty_heap (VString "abort_code: 8") "abort_code: 8"
            eq_refl ltac:(vm_compute; reflexivity)).
Defined.

(** *** Custom entries and refreshed defaults *)

Lemma refresh_keeps_custom_code k m d r :
  custom_code_held k m d -> custom_code_held k m (refresh d r).
Proof.
  intros [Hc He]. destruct r as [c|t]; split; simpl; try assumption.
  by apply spread_codes_custom_wins.
Qed.

Lemma refresh_keeps_custom_type ty m d r :
  custom_type_held ty m d -> custom_type_held ty m (refresh d r).
Proof.
  intros (Hw & Hc & Hw' & He). destruct r as [c|t]; repeat split; simpl; try assumption.
  - apply TxMapFacts.wf_spread.
  - by apply TxMapFacts.lookup_spread_Some.
Qed.

Lemma refreshes_keep_custom_code k m rs d :
  custom_code_held k m d -> custom_code_held k m (fold_left refresh rs d).
Proof.
  revert d. induction rs as [|r rs IH]; intros d H; simpl; [exact H|].
  apply IH, refresh_keeps_custom_code, H.
Qed.

Lemma refreshes_keep_custom_type ty m rs d :
  custom_type_held ty m d -> custom_type_held ty m (fold_left refresh rs d).
Proof.
  revert d. induction rs as [|r rs IH]; intros d H; simpl; [exact H|].
  apply IH, refresh_keeps_custom_type, H.
Qed.

Lemma new_custom_type (DEFAULTS : ErrorCodeMap) (TX_DEFAULTS : TransactionErrorMap)
    options errs ty m :
  opt_customTransactionErrors options = Some errs ->
  TxMap.wf errs ->
  TxMap.lookup ty errs = Some m ->
  custom_type_held ty m (new DEFAULTS TX_DEFAULTS options).
Proof.
  intros Ho Hw Hk. unfold custom_type_held, new. rewrite Ho. simpl.
  destruct (default true (opt_includeDefaults options)); repeat split; try assumption.
  - apply TxMapFacts.wf_spread.
  - by apply TxMapFacts.lookup_spread_Some.
Qed.

Lemma code_lookup_resolves k m d :
  m <> "" -> errorCodes d !! k = Some m -> code_resolves_to k m d.
Proof.
  intros Hm H.
  assert (Ht : truthy_message (Some m) = Some m).
  { simpl. destruct (String.eqb m "") eqn:E; [|reflexivity].
    apply String.eqb_eq in E. contradiction. }
  repeat split.
  - by rewrite getErrorCodes_eq.
  - unfold getErrorMessage. by rewrite H.
  - intros h error s Hs Hc.
    rewrite (parseError_with_code d h error s k Hs Hc).
    unfold code_result. rewrite H, Ht. reflexivity.
Qed.

Lemma type_lookup_resolves ty m d :
  m <> "" -> TxMap.wf (transactionErrors d) ->
  TxMap.lookup ty (transactionErrors d) = Some m -> type_resolves_to ty m d.
Proof.
  intros Hm Hw H. split.
  - unfold getTransactionErrors. by rewrite TxMapFacts.spread_nil.
  - unfold getTransactionErrorMessage. rewrite H. simpl.
    destruct (String.eqb m "") eqn:E; [|reflexivity].
    apply String.eqb_eq in E. contradiction.
Qed.

(** C3: an entry supplied as a custom code at construction is what the
    merged table holds for its key, and it still is after any sequence
    of refreshes of the default tables: [getErrorCodes],
    [getErrorMessage] and [parseError] keep answering with the custom
    message.  The same holds for a custom transaction-error type. *)
Theorem C3_custom_entries_survive_default_refresh :
  forall (DEFAULTS : ErrorCodeMap) (TX_DEFAULTS : TransactionErrorMap)
         (options : SuiErrorDecoderOptions) (refreshes : list Refresh),
    let d := fold_left refresh refreshes (new DEFAULTS TX_DEFAULTS options) in
    (forall codes k m,
       opt_customErrorCodes options = Some codes ->
       codes !! k = Some m -> m <> "" ->
       code_resolves_to k m d)
    /\ (forall errs ty m,
          opt_customTransactionErrors options = Some errs ->
          TxMap.wf errs ->
          TxMap.lookup ty errs = Some m -> m <> "" ->
          type_resolves_to ty m d).
Proof.
  intros DEFAULTS TX_DEFAULTS options refreshes d. split.
  - intros codes k m Ho Hk Hm.
    destruct (new_custom_code DEFAULTS TX_DEFAULTS options codes k m Ho Hk) as [He Hc].
    destruct (refreshes_keep_custom_code k m refreshes _ (conj Hc He)) as [_ H].
    by apply code_lookup_resolves.
  - intros errs ty m Ho Hw Hk Hm.
    pose proof (new_custom_type DEFAULTS TX_DEFAULTS options errs ty m Ho Hw Hk) as H0.
    destruct (refreshes_keep_custom_type ty m refreshes _ H0) as (_ & _ & Hw' & H).
    by apply type_lookup_resolves.
Qed.

(** The instance of the specification: defaults that define code 1000
    and the type [INSUFFICIENT_GAS], custom entries "A" for both, and a
    refresh of each table that maps them to "B". *)
Lemma C3_example :
  let d := fold_left refresh
             [RefreshCodes {[1000 := "B"]};
              RefreshTransactions [("INSUFFICIENT_GAS", "B")]]
             (new {[1000 := "Unknown verification error"]}
                  [("INSUFFICIENT_GAS", "Insufficient gas.")]
                  (Options (Some {[1000 := "A"]})
                           (Some [("INSUFFICIENT_GAS", "A")]) None)) in
  (getErrorCodes d !! 1000 = Some "A"
   /\ getErrorMessage d 1000 = Some "A"
   /\ parseError d Sample.empty_heap (VString "Error Code 1000")
      = Return (ParsedError.Make (Some 1000) None "Error Code 1000: A" true move_abort
                                 (VString "Error Code 1000")))
  /\ TxMap.lookup "INSUFFICIENT_GAS" (getTransactionErrors d) = Some "A"
  /\ getTransactionErrorMessage d "INSUFFICIENT_GAS" = Return (Some "A").
Proof.
  intros d.
  destruct (C3_custom_entries_survive_default_refresh
              {[1000 := "Unknown verification error"]}
              [("INSUFFICIENT_GAS", "Insufficient gas.")]
              (Options (Some {[1000 := "A"]}) (Some [("INSUFFICIENT_GAS", "A")]) None)
              [RefreshCodes {[1000 := "B"]};
               RefreshTransactions [("INSUFFICIENT_GAS", "B")]])
    as [Hcodes Htypes].
  destruct (Hcodes ({[1000 := "A"]} : gmap Z string) 1000 "A" eq_refl
                   (lookup_singleton_eq 1000 "A") ltac:(discriminate))
    as (Hg & Hm & Hp).
  destruct (Htypes [("INSUFFICIENT_GAS", "A")] "INSUFFICIENT_GAS" "A" eq_refl
                   ltac:(repeat constructor; simpl; tauto) eq_refl ltac:(discriminate))
    as (Hl & Ht).
  split; [split; [exact Hg | split; [exact Hm |]] | split; [exact Hl | exact Ht]].
  exact (Hp Sample.empty_heap (VString "Error Code 1000") "Error Code 1000"
            eq_refl ltac:(vm_compute; reflexivity)).
Defined.

(** *** Category of a decoded code *)

Lemma categorizeError_bands c s :
  (2000 <= c -> categorizeError c s = sui_system)
  /\ (1 <= c <= 1999 -> categorizeError c s = move_abort).
Proof.
  unfold categorizeError. split; intros H.
  - destruct (1000 <=? c) eqn:E1; destruct (c <=? 1999) eqn:E2;
      destruct (2000 <=? c) eqn:E3; destruct (c <=? 2999) eqn:E4;
      destruct (3000 <=? c) eqn:E5; simpl; try reflexivity; lia.
  - destruct (1000 <=? c) eqn:E1; destruct (c <=? 1999) eqn:E2;
      destruct (2000 <=? c) eqn:E3; destruct (c <=? 2999) eqn:E4;
      destruct (3000 <=? c) eqn:E5; destruct (1 <=? c) eqn:E6;
      destruct (c <=? 999) eqn:E7; simpl; try reflexivity; lia.
Qed.

(** C5, as stated, fails: with no code registered, an input carrying
    code 2023 is decoded with category [move_abort], not
    [sui_system]. *)
Lemma C5_unregistered_2023_is_move_abort :
  let d := Sample.bare ∅ [] in
  let input := VString "System error with code 2023" in
  extractErrorCode "System error with code 2023" = Some 2023
  /\ errorCodes d !! 2023 = None
  /\ exists r,
       parseError d Sample.empty_heap input = Return r
       /\ ParsedError.category r = move_abort
       /\ ParsedError.category r <> sui_system.
Proof.
  intros d input. split; [vm_compute; reflexivity|].
  split; [reflexivity|].
  exists (unknown_code_result 2023 input).
  split; [vm_compute; reflexivity|].
  split; [reflexivity | discriminate].
Qed.

(** C5, amended: the numeric band decides the category of a code that
    is registered with a non-empty message (2000 and above gives
    [sui_system], 1 to 1999 gives [move_abort], so a registered 2023 is
    [sui_system] and a registered 500 is [move_abort]); a code that is
    not registered is always [move_abort]. *)
Theorem C5_band_category_for_registered_codes :
  forall d h error s c,
    extractErrorString h error = Return (VString s) ->
    extractErrorCode s = Some c ->
    (forall m, errorCodes d !! c = Some m -> m <> "" ->
       exists r,
         parseError d h error = Return r
         /\ ParsedError.category r = categorizeError c s
         /\ (2000 <= c -> ParsedError.category r = sui_system)
         /\ (1 <= c <= 1999 -> ParsedError.category r = move_abort))
    /\ (errorCodes d !! c = None ->
        exists r,
          parseError d h error = Return r /\ ParsedError.category r = move_abort).
Proof.
  intros d h error s c Hs Hc. split.
  - intros m Hm Hne.
    destruct (code_lookup_resolves c m d Hne Hm) as (_ & _ & Hp).
    exists (known_code_result c m s error).
    split; [exact (Hp h error s Hs Hc)|].
    split; [reflexivity|]. simpl. apply categorizeError_bands.
  - intros Hm. exists (unknown_code_result c error).
    rewrite (parseError_with_code d h error s c Hs Hc).
    unfold code_result. rewrite Hm. split; reflexivity.
Qed.

Lemma C5_example :
  (exists r,
     parseError (Sample.bare {[2023 := "Arithmetic overflow"]} []) Sample.empty_heap
                (VString "System error with code 2023") = Return r
     /\ ParsedError.category r = sui_system)
  /\ (exists r,
        parseError (Sample.bare {[500 := "Custom"]} []) Sample.empty_heap
                   (VString "Error code 500") = Return r
        /\ ParsedError.category r = move_abort)
  /\ (exists r,
        parseError (Sample.bare ∅ []) Sample.empty_heap
                   (VString "Error code 500") = Return r
        /\ ParsedError.category r = move_abort).
Proof.
  split; [|split].
  - destruct (C5_band_category_for_registered_codes
                (Sample.bare {[2023 := "Arithmetic overflow"]} []) Sample.empty_heap
                (VString "System error with code 2023") "System error with code 2023" 2023
                eq_refl ltac:(vm_compute; reflexivity)) as [Hreg _].
    destruct (Hreg "Arithmetic overflow" (lookup_singleton_eq 2023 "Arithmetic overflow")
                   ltac:(discriminate)) as (r & Hr & _ & Hsys & _).
    exists r. split; [exact Hr | apply Hsys; lia].
  - destruct (C5_band_category_for_registered_codes
                (Sample.bare {[500 := "Custom"]} []) Sample.empty_heap
                (VString "Error code 500") "Error code 500" 500
                eq_refl ltac:(vm_compute; reflexivity)) as [Hreg _].
    destruct (Hreg "Custom" (lookup_singleton_eq 500 "Custom") ltac:(discriminate))
      as (r & Hr & _ & _ & Hmove).
    exists r. split; [exact Hr | apply Hmove; lia].
  - destruct (C5_band_category_for_registered_codes
                (Sample.bare ∅ []) Sample.empty_heap
                (VString "Error code 500") "Error code 500" 500
                eq_refl ltac:(vm_compute; reflexivity)) as [_ Hun].
    exact (Hun (lookup_empty 500)).
Defined.

(** *** Registry keys as patterns *)

Lemma scan_transaction_errors_app pre rest s :
  scan_transaction_errors pre s = Return None ->
  scan_transaction_errors (List.app pre rest) s = scan_transaction_errors rest s.
Proof.
  induction pre as [|[k m] pre IH]; simpl; intros H; [reflexivity|].
  destruct (RegExp_new ("\b" ++ k ++ "\b")) as [re| |]; simpl in *; try discriminate.
  destruct (Regex.test re s); [discriminate|]. exact (IH H).
Qed.

(** C10: the exact symbolic-type scan compiles every registered key
    into a pattern.  When the scan reaches a key whose pattern text is
    not a valid pattern, [parseError] raises a [SyntaxError]; with the
    key "(" added through [addTransactionErrors] to a decoder whose table
    was empty, it does so on every input from which no code is
    extracted. *)
Theorem C10_unsafe_registry_key_makes_parseError_throw :
  (forall d h error s pre k m post msg,
     extractErrorString h error = Return (VString s) ->
     extractErrorCode s = None ->
     TxMap.entries (transactionErrors d) = List.app pre ((k, m) :: post) ->
     scan_transaction_errors pre s = Return None ->
     Regex.parse ("\b" ++ k ++ "\b") = Regex.PSyntaxError msg ->
     parseError d h error = Raise (SyntaxError msg))
  /\ (forall (DEFAULTS : ErrorCodeMap) (TX_DEFAULTS : TransactionErrorMap) h error s,
        extractErrorString h error = Return (VString s) ->
        extractErrorCode s = None ->
        parseError
          (addTransactionErrors
             (new DEFAULTS TX_DEFAULTS (Sample.custom_only ∅ []))
             [("(", "Unbalanced")])
          h error
        = Raise (SyntaxError "Unterminated group")).
Proof.
  assert (G : forall d h error s pre k m post msg,
     extractErrorString h error = Return (VString s) ->
     extractErrorCode s = None ->
     TxMap.entries (transactionErrors d) = List.app pre ((k, m) :: post) ->
     scan_transaction_errors pre s = Return None ->
     Regex.parse ("\b" ++ k ++ "\b") = Regex.PSyntaxError msg ->
     parseError d h error = Raise (SyntaxError msg)).
  { intros d h error s pre k m post msg Hs Hc He Hpre Hk.
    rewrite (parseError_without_code d h error s Hs Hc).
    unfold findPatternMatch. rewrite He, (scan_transaction_errors_app _ _ _ Hpre).
    simpl. unfold RegExp_new. rewrite Hk. reflexivity. }
  split; [exact G|].
  intros DEFAULTS TX_DEFAULTS h error s Hs Hc.
  apply (G _ h error s [] "(" "Unbalanced" [] "Unterminated group" Hs Hc);
    reflexivity.
Qed.

Lemma C10_example :
  parseError
    (addTransactionErrors (Sample.bare ∅ [("INSUFFICIENT_GAS", "Insufficient gas.")])
                          [("LIMIT(", "Limit exceeded")])
    Sample.empty_heap (VString "Some unknown error")
  = Raise (SyntaxError "Unterminated group")
  /\ parseError
       (addTransactionErrors (new ∅ [] (Sample.custom_only ∅ [])) [("(", "Unbalanced")])
       Sample.empty_heap VNull
     = Raise (SyntaxError "Unterminated group").
Proof.
  destruct C10_unsafe_registry_key_makes_parseError_throw as [Hgen Hone].
  split.
  - apply (Hgen _ Sample.empty_heap (VString "Some unknown error") "Some unknown error"
             [("INSUFFICIENT_GAS", "Insufficient gas.")] "LIMIT(" "Limit exceeded" []
             "Unterminated group");
      vm_compute; reflexivity.
  - apply (Hone ∅ [] Sample.empty_heap VNull ""); vm_compute; reflexivity.
Defined.

(** *** Messages of the content patterns *)

(** No registry method touches the pattern table: after any sequence of
    calls it is still the table the constructor built from the
    transaction-error table of that moment. *)
Lemma PATTERN_MATCHERS_frozen (DEFAULTS : ErrorCodeMap) (TX_DEFAULTS : TransactionErrorMap)
    options calls :
  let d0 := new DEFAULTS TX_DEFAULTS options in
  PATTERN_MATCHERS (fold_left perform calls d0)
  = build_PATTERN_MATCHERS (transactionErrors d0).
Proof.
  intros d0.
  assert (G : forall d, PATTERN_MATCHERS (fold_left perform calls d) = PATTERN_MATCHERS d).
  { induction calls as [|c calls IH]; intros d; simpl; [reflexivity|].
    rewrite IH. destruct c; reflexivity. }
  rewrite G. reflexivity.
Qed.

(** Hence, when the exact scan finds nothing, the outcome of
    [findPatternMatch] is read off the construction-time table. *)
Lemma findPatternMatch_uses_construction_table
    (DEFAULTS : ErrorCodeMap) (TX_DEFAULTS : TransactionErrorMap) options calls s :
  let d0 := new DEFAULTS TX_DEFAULTS options in
  let d := fold_left perform calls d0 in
  scan_transaction_errors (TxMap.entries (transactionErrors d)) s = Return None ->
  findPatternMatch d s
  = Return (scan_pattern_matchers (build_PATTERN_MATCHERS (transactionErrors d0)) s).
Proof.
  intros d0 d H. unfold findPatternMatch. rewrite H. simpl.
  unfold d, d0. rewrite PATTERN_MATCHERS_frozen. reflexivity.
Qed.

(** C4 (the code departs from it): the message of a content pattern is
    the one computed by the constructor.  After [addTransactionErrors]
    has replaced the message of [INSUFFICIENT_GAS], and likewise after
    [updateDefaultTransactionErrors] has supplied one, an input that
    only the content pattern [/insufficient.*gas/i] matches is still
    decoded with the text from construction time. *)
Theorem C4_content_pattern_message_fixed_at_construction :
  forall (DEFAULTS : ErrorCodeMap) (TX_DEFAULTS : TransactionErrorMap),
    let input := VString "insufficient gas" in
    (let d0 := new DEFAULTS TX_DEFAULTS
                   (Sample.custom_only ∅ [("INSUFFICIENT_GAS", "Insufficient gas.")]) in
     let d1 := addTransactionErrors d0 [("INSUFFICIENT_GAS", "Out of gas")] in
     getTransactionErrorMessage d1 "INSUFFICIENT_GAS" = Return (Some "Out of gas")
     /\ parseError d1 Sample.empty_heap input
        = Return (ParsedError.Make None (Some "INSUFFICIENT_GAS")
                    "Transaction Error (INSUFFICIENT_GAS): Insufficient gas."
                    true transaction input))
    /\ (let d0 := new DEFAULTS TX_DEFAULTS (Sample.custom_only ∅ []) in
        let d2 := updateDefaultTransactionErrors d0 [("INSUFFICIENT_GAS", "Out of gas")] in
        getTransactionErrorMessage d2 "INSUFFICIENT_GAS" = Return (Some "Out of gas")
        /\ parseError d2 Sample.empty_heap input
           = Return (ParsedError.Make None (Some "INSUFFICIENT_GAS")
                       "Transaction Error (INSUFFICIENT_GAS): undefined"
                       true transaction input)).
Proof.
  intros DEFAULTS TX_DEFAULTS input.
  split; split; vm_compute; reflexivity.
Qed.

(** *** Negative numbers *)

(** The input of the specification's example: no code is extracted, and
    a decoder with empty tables reports category [unknown]. *)
Lemma negative_code_example :
  extractErrorCode "Error with code -1000" = None
  /\ parseError (Sample.bare ∅ []) Sample.empty_heap (VString "Error with code -1000")
     = Return (ParsedError.Make None None "Error with code -1000" false unknown
                                (VString "Error with code -1000")).
Proof. split; vm_compute; reflexivity. Qed.

(** C6 (the code departs from it): in the shape [MoveAbort(-1000)] the
    only number is negative, yet the lazy pattern
    [/MoveAbort.*?(\d+)\)/] skips the sign and the code 1000 is
    extracted; [parseError] then reports [code = 1000] and category
    [move_abort] for every decoder. *)
Theorem C6_negative_number_extracted_in_MoveAbort_shape :
  extractErrorCode "MoveAbort(-1000)" = Some 1000
  /\ forall d h,
       exists r,
         parseError d h (VString "MoveAbort(-1000)") = Return r
         /\ ParsedError.code r = Some 1000
         /\ ParsedError.category r = move_abort.
Proof.
  assert (Hc : extractErrorCode "MoveAbort(-1000)" = Some 1000)
    by (vm_compute; reflexivity).
  split; [exact Hc|].
  intros d h.
  exists (code_result d 1000 "MoveAbort(-1000)" (VString "MoveAbort(-1000)")).
  split; [exact (parseError_with_code d h (VString "MoveAbort(-1000)") "MoveAbort(-1000)"
                                      1000 eq_refl Hc)|].
  unfold code_result.
  destruct (truthy_message (errorCodes d !! 1000)); split; reflexivity.
Qed.

(** *** Inputs whose conversion to a string fails *)

(** C2 (the code departs from it): [extractErrorString] guards
    [String(error)] with a [try], but calls [error.toString()] and reads
    [error.message] outside of it, and hands on whatever [toString]
    returns.  For every decoder, an object whose [toString] throws, an
    object whose [toString] returns a number, and an object whose
    [message] getter throws make [parseError] raise. *)
Theorem C2_parseError_raises_on_hostile_objects :
  forall d,
    parseError d Hostile.heap (VObject 0%nat) = Raise (Thrown (VString "boom"))
    /\ parseError d Hostile.heap (VObject 2%nat)
       = Raise (TypeError "errorString.match is not a function")
    /\ parseError d Hostile.heap (VObject 4%nat) = Raise (Thrown (VString "boom")).
Proof. intros d. repeat split. Qed.

(** *** Keys that are word tokens compile *)

Module TokenFacts.

Import Regex Chars Token.

Lemma quantified_plain_head r s :
  plain_head s = true -> quantified r s = POk (r, s).
Proof.
  destruct s as [|c s]; [reflexivity|].
  destruct c as [[] [] [] [] [] [] [] []]; simpl; intros H;
    try discriminate H; reflexivity.
Qed.

Lemma assertion_plain_head r s :
  plain_head s = true -> assertion r s = POk (r, s).
Proof.
  destruct s as [|c s]; [reflexivity|].
  destruct c as [[] [] [] [] [] [] [] []]; simpl; intros H;
    try discriminate H; reflexivity.
Qed.

(** On a word character [parse_alt] takes the literal branch. *)
Lemma parse_alt_word c rest fuel n :
  is_word c = true ->
  parse_alt (S fuel) (c :: rest) n =
    pbind (quantified (RLit c) rest) (fun '(r, rest') =>
      pbind (parse_alt fuel rest' n) (fun '(r', rest'', n'') =>
        POk (RSeq r r', rest'', n''))).
Proof.
  destruct c as [[] [] [] [] [] [] [] []]; intros H;
    try discriminate H; reflexivity.
Qed.

Lemma parse_alt_boundary rest fuel n :
  plain_head rest = true ->
  parse_alt (S fuel) (List.app boundary rest) n =
    pbind (parse_alt fuel rest n) (fun '(r', rest'', n'') =>
      POk (RSeq (RWordBoundary false) r', rest'', n'')).
Proof.
  intros H. change (List.app boundary rest) with ("\"%char :: "b"%char :: rest).
  cbn [parse_alt]. simpl Ascii.eqb. cbv iota.
  rewrite (assertion_plain_head _ _ H). reflexivity.
Qed.

Lemma plain_head_app cs tail :
  forallb is_word cs = true -> plain_head tail = true ->
  plain_head (List.app cs tail) = true.
Proof.
  destruct cs as [|c cs]; simpl; intros H Ht; [exact Ht|].
  apply andb_prop in H. destruct H as [Hc _]. rewrite Hc. reflexivity.
Qed.

Lemma parse_alt_token cs :
  forallb is_word cs = true ->
  forall fuel n,
    (List.length cs + 2 <= fuel)%nat ->
    exists r, parse_alt fuel (List.app cs boundary) n = POk (r, [], n).
Proof.
  induction cs as [|c cs IH]; intros Hw fuel n Hf.
  - destruct fuel as [|[|fuel]]; simpl in Hf; try lia.
    exists (RSeq (RWordBoundary false) REmpty). reflexivity.
  - simpl in Hw. apply andb_prop in Hw. destruct Hw as [Hc Hcs].
    destruct fuel as [|fuel]; simpl in Hf; [lia|].
    destruct (IH Hcs fuel n ltac:(lia)) as [r Hr].
    exists (RSeq (RLit c) r).
    change (List.app (c :: cs) boundary) with (c :: List.app cs boundary).
    rewrite (parse_alt_word c _ fuel n Hc).
    rewrite (quantified_plain_head _ _ (plain_head_app cs boundary Hcs eq_refl)).
    simpl. rewrite Hr. reflexivity.
Qed.

Lemma list_ascii_of_string_app (a b : string) :
  list_ascii_of_string (a ++ b)
  = List.app (list_ascii_of_string a) (list_ascii_of_string b).
Proof.
  induction a as [|c a IH]; [reflexivity|].
  change (String c a ++ b) with (String c (a ++ b)). simpl. f_equal. exact IH.
Qed.

(** The pattern text built from a word token is a valid pattern. *)
Lemma word_token_parses (k : string) :
  word_token k = true -> exists r, parse ("\b" ++ k ++ "\b") = POk r.
Proof.
  intros Hw. unfold parse.
  rewrite list_ascii_of_string_app, list_ascii_of_string_app.
  change (list_ascii_of_string "\b") with boundary.
  set (cs := list_ascii_of_string k) in *.
  set (s := List.app boundary (List.app cs boundary)).
  assert (Hlen : List.length s = (List.length cs + 4)%nat).
  { unfold s. rewrite !List.length_app. simpl. lia. }
  rewrite Hlen.
  replace (2 * (List.length cs + 4) + 2)%nat
    with (S (S (2 * List.length cs + 8)))%nat by lia.
  destruct (parse_alt_token cs Hw (2 * List.length cs + 8)%nat 0%nat ltac:(lia))
    as [r Hr].
  exists (RSeq (RWordBoundary false) r).
  cbn [parse_disj]. unfold s.
  rewrite (parse_alt_boundary _ _ _ (plain_head_app cs boundary Hw eq_refl)).
  rewrite Hr. reflexivity.
Qed.

End TokenFacts.

(** *** Inputs on which [parseError] returns *)

Module QuietFacts.

Import Token TokenFacts Quiet.

Lemma entries_Forall (P : string * string -> Prop) (m : TransactionErrorMap) :
  Forall P m -> Forall P (TxMap.entries m).
Proof.
  intros H. unfold TxMap.entries. apply Forall_app. split.
  - apply List.Forall_map.
    induction H as [|kv m Hkv Hm IH]; simpl; [constructor|].
    destruct (TxMap.array_index (fst kv)) as [n|]; [|exact IH].
    revert IH.
    generalize (fold_right
      (fun kv acc => match TxMap.array_index (fst kv) with
                     | Some n => TxMap.insert_sorted (n, kv) acc
                     | None => acc
                     end) [] m) as acc.
    induction acc as [|e acc IHacc]; simpl; intros Hacc.
    + constructor; [exact Hkv | constructor].
    + destruct (n <? fst e).
      * constructor; [exact Hkv | exact Hacc].
      * inversion Hacc; subst. constructor; [assumption | by apply IHacc].
  - rewrite List.Forall_forall in *. intros x Hx.
    apply List.filter_In in Hx. apply H, Hx.
Qed.

Lemma scan_returns (entries : list (string * string)) (s : string) :
  Forall (fun kv => word_token (fst kv) = true) entries ->
  exists r, scan_transaction_errors entries s = Return r.
Proof.
  induction 1 as [|[k m] entries Hk _ IH]; simpl.
  - by exists None.
  - destruct (word_token_parses k Hk) as [re Hre].
    unfold RegExp_new. rewrite Hre. simpl.
    destruct (Regex.test _ s); [eexists; reflexivity | exact IH].
Qed.

Lemma findPatternMatch_returns d s :
  safe_registry d = true -> exists r, findPatternMatch d s = Return r.
Proof.
  intros H. unfold findPatternMatch.
  destruct (scan_returns (TxMap.entries (transactionErrors d)) s) as [r Hr].
  - apply entries_Forall. apply Forall_forall. intros kv Hin.
    unfold safe_registry in H. rewrite forallb_forall in H.
    apply H. by apply list_elem_of_In.
  - rewrite Hr. simpl. destruct r; eexists; reflexivity.
Qed.

(** With a safe registry, [parseError] returns on every input that
    [extractErrorString] turns into a string, and the result carries
    the input. *)
Lemma parseError_returns_on_string d h error s :
  safe_registry d = true ->
  extractErrorString h error = Return (VString s) ->
  exists r, parseError d h error = Return r /\ ParsedError.originalError r = error.
Proof.
  intros Hd Hs. unfold parseError. rewrite Hs. simpl.
  destruct (extractErrorCode s) as [c|].
  - eexists. split; [reflexivity|]. unfold code_result.
    destruct (truthy_message _); reflexivity.
  - destruct (findPatternMatch_returns d s Hd) as [r Hr]. rewrite Hr. simpl.
    destruct r; eexists; split; reflexivity.
Qed.

Lemma own_data ps k :
  forallb (fun kp => is_data (snd kp)) ps = true ->
  own_property k ps = None \/ exists v, own_property k ps = Some (Data v).
Proof.
  induction ps as [|[k' p] ps IH]; simpl; intros H; [by left|].
  apply andb_prop in H. destruct H as [Hp Hps].
  destruct (key_eqb k k'); [|exact (IH Hps)].
  destruct p; [right; eauto | discriminate].
Qed.

Lemma join_primitives h elements :
  forallb (fun v => negb (is_object v)) elements = true ->
  exists s, join h elements = Return s.
Proof.
  induction elements as [|v elements IH]; intros H; [by exists ""|].
  simpl in H. apply andb_prop in H. destruct H as [Hv Hr].
  destruct (IH Hr) as [s Hs].
  assert (Hp : exists a, (if is_nullish v then Return "" else ToString_primitive v) = Return a).
  { destruct v as [| |[]| | | |]; simpl in *; try discriminate; eexists; reflexivity. }
  destruct Hp as [a Ha].
  destruct elements as [|w elements].
  - exists a. exact Ha.
  - exists (a ++ "," ++ s). cbn [join]. cbn [join] in Hs. rewrite Ha. simpl.
    rewrite Hs. reflexivity.
Qed.

Lemma ToString_primitive_returns v :
  is_object v = false -> exists s, ToString_primitive v = Return s.
Proof. destruct v as [| |[]| | | |]; simpl; intros; try discriminate; eexists; reflexivity. Qed.

Lemma is_string_typeof h v :
  truthy v && JSType_eqb (typeof h v) TString = true -> exists s, v = VString s.
Proof.
  destruct v as [| |b|n|s|l|b]; simpl; rewrite ?andb_false_r; try discriminate.
  - by exists s.
  - destruct (obj_class (h l)); discriminate.
Qed.

Lemma inherited_message_returns c :
  exists m, inherited c "message" = Return m /\ is_object m = false.
Proof. destruct c; eexists; split; reflexivity. Qed.

Lemma cause_message_returns h l :
  forallb (fun kp => is_data (snd kp)) (obj_props (h l)) = true ->
  match own_property "cause" (obj_props (h l)) with
  | Some (Data (VObject l')) =>
      match own_property "message" (obj_props (h l')) with
      | Some (Accessor _) => false
      | _ => true
      end
  | _ => true
  end = true ->
  quiet_class (obj_class (h l)) = true ->
  exists cm, cause_message h (VObject l) = Return cm.
Proof.
  intros Hd Hc Hq. unfold cause_message, get.
  destruct (own_data _ "cause" Hd) as [E|[c E]]; rewrite E in *.
  - destruct (obj_class (h l)); try discriminate; eexists; reflexivity.
  - simpl. destruct c as [| |b|n|s|l'|b]; simpl; try (eexists; reflexivity).
    destruct (own_property "message" (obj_props (h l'))) as [[v|g]|];
      try discriminate; [eexists; reflexivity|].
    destruct (inherited_message_returns (obj_class (h l'))) as (m & Hm & _).
    exists m. exact Hm.
Qed.

Lemma quiet_object_inv o :
  quiet_object o = true ->
  quiet_class (obj_class o) = true
  /\ forallb (fun kp => is_data (snd kp)) (obj_props o) = true
  /\ own_property "toString" (obj_props o) = None
  /\ own_property "valueOf" (obj_props o) = None
  /\ own_property "join" (obj_props o) = None
  /\ own_property "name" (obj_props o) = None
  /\ own_property KToPrimitive (obj_props o) = None
  /\ match own_property "message" (obj_props o) with
     | Some (Data v) => negb (is_object v)
     | _ => true
     end = true.
Proof.
  unfold quiet_object, has_own. intros H.
  repeat (apply andb_prop in H; let H' := fresh in destruct H as [H H']; revert H').
  intros Hmsg Htp Hname Hjoin Hvo Hts Hdata.
  repeat split; try assumption.
  - destruct (own_property "toString" (obj_props o)); [discriminate | reflexivity].
  - destruct (own_property "valueOf" (obj_props o)); [discriminate | reflexivity].
  - destruct (own_property "join" (obj_props o)); [discriminate | reflexivity].
  - destruct (own_property "name" (obj_props o)); [discriminate | reflexivity].
  - destruct (own_property KToPrimitive (obj_props o)); [discriminate | reflexivity].
Qed.

Lemma by_conversion_returns h l :
  quiet_object (h l) = true ->
  exists s, by_conversion h (VObject l) = Return (VString s).
Proof.
  intros Ho.
  destruct (quiet_object_inv _ Ho) as (Hcls & Hdata & Ets & Evo & Ejoin & Ename & Etp & Hmsg).
  unfold by_conversion, String_, ToPrimitive, OrdinaryToPrimitive, get.
  rewrite Ets, Etp, Evo.
  destruct (obj_class (h l)) as [|elements| | |c] eqn:Ecls; try discriminate.
  - (* plain object *)
    simpl. rewrite Ecls. simpl. eexists; reflexivity.
  - (* array *)
    destruct (join_primitives h elements Hcls) as [s Hs].
    simpl. rewrite Ecls, Ejoin, Hs. simpl.
    destruct (negb (String.eqb s "[object Object]")); simpl; eexists; reflexivity.
  - (* error *)
    simpl. unfold get. rewrite Ename, Ecls.
    destruct (own_data _ "message" Hdata) as [E|[v E]]; rewrite E in *.
    + simpl. eexists; reflexivity.
    + destruct v as [| |[]|n|t| |]; try discriminate Hmsg; simpl;
        repeat match goal with
               | |- context [String.eqb ?a ?b] => destruct (String.eqb a b); simpl
               end;
        eexists; reflexivity.
  - (* no prototype *)
    simpl. eexists; reflexivity.
Qed.

Lemma extractErrorString_quiet h error :
  quiet h error = true -> exists s, extractErrorString h error = Return (VString s).
Proof.
  destruct error as [| |b|n|s|l|b]; simpl; intros Hq; try discriminate.
  - by exists "".
  - by exists "".
  - destruct b; eexists; reflexivity.
  - exists (Number_toString n). unfold extractErrorString. simpl.
    rewrite andb_false_r. reflexivity.
  - by exists s.
  - apply andb_prop in Hq. destruct Hq as [Ho Hcause].
    pose proof (by_conversion_returns h l Ho) as Htail.
    destruct (quiet_object_inv _ Ho) as (Hcls & Hdata & _).
    assert (Hty : JSType_eqb (typeof h (VObject l)) TObject = true).
    { simpl. destruct (obj_class (h l)); try discriminate; reflexivity. }
    destruct (cause_message_returns h l Hdata Hcause Hcls) as [cm Hcm].
    assert (Hmsg : exists m, get h (VObject l) "message" = Return m).
    { unfold get. destruct (own_data _ "message" Hdata) as [E|[v E]]; rewrite E.
      - destruct (inherited_message_returns (obj_class (h l))) as (m & Hm & _). eauto.
      - eauto. }
    destruct Hmsg as [m Hm].
    unfold extractErrorString.
    cbn [is_nullish]. cbv iota.
    replace (JSType_eqb (typeof h (VObject l)) TString) with false
      by (simpl; destruct (obj_class (h l)); reflexivity).
    rewrite Hty. cbn [truthy andb]. cbv iota.
    rewrite Hm. cbn [bind]. cbv beta iota.
    destruct (truthy m && JSType_eqb (typeof h m) TString) eqn:Em.
    { destruct (is_string_typeof h m Em) as [s ->]. exists s. reflexivity. }
    rewrite Hcm. cbn [bind]. cbv beta iota.
    destruct (truthy cm && JSType_eqb (typeof h cm) TString) eqn:Ecm.
    { destruct (is_string_typeof h cm Ecm) as [s ->]. exists s. reflexivity. }
    exact Htail.
Qed.

(** With a safe registry [parseError] returns, with the input as
    [originalError], on [null], [undefined], strings, numbers, booleans,
    arrays of primitives and quiet objects, self-referential ones
    included. *)
Lemma parseError_returns_on_quiet_input d h error :
  safe_registry d = true ->
  quiet h error = true ->
  exists r, parseError d h error = Return r /\ ParsedError.originalError r = error.
Proof.
  intros Hd Hq. destruct (extractErrorString_quiet h error Hq) as [s Hs].
  exact (parseError_returns_on_string d h error s Hd Hs).
Qed.

(** The edge-case inputs are quiet, and a decoder whose only registered
    type is [INSUFFICIENT_GAS] is safe. *)
Lemma edge_inputs_are_quiet :
  safe_registry (Sample.bare ∅ [("INSUFFICIENT_GAS", "Insufficient gas.")]) = true
  /\ Forall (fun v => quiet Sample.edge_heap v = true)
       [VNull; VUndefined; VNumber 123; VString "MoveAbort("; VBoolean false;
        VObject 0%nat; VObject 1%nat; VObject 2%nat; VObject 3%nat; VObject 4%nat].
Proof. split; [reflexivity | repeat constructor]. Qed.

Lemma circular_object_example :
  parseError (Sample.bare ∅ []) Sample.edge_heap (VObject 0%nat)
  = Return (ParsedError.Make None None "Circular error" false unknown (VObject 0%nat))
  /\ parseError (Sample.bare {[7 := "Insufficient balance or resources"]} [])
                Sample.edge_heap (VObject 3%nat)
     = Return (ParsedError.Make (Some 7) None
                 "Error Code 7: Insufficient balance or resources" true move_abort
                 (VObject 3%nat)).
Proof. split; vm_compute; reflexivity. Qed.

End QuietFacts.

(** *** The preceding revision *)

Module EarlierFacts.

(** The patterns of the preceding revision lie in the parsed fragment
    too. *)
Lemma earlier_literals_parse :
  forallb parses
    [ "MoveAbort\([^,]+,\s*(\d+)\)"; "MoveAbort\([^)]+\)\s*,\s*(\d+)\)" ] = true.
Proof. vm_compute. reflexivity. Qed.

(** There the symbolic type is checked first: the example input of the
    precedence question is decoded as [INSUFFICIENT_GAS]. *)
Lemma symbolic_type_first :
  let d := Earlier.new ∅ []
             (Sample.custom_only {[1001 := "Index out of bounds"]}
                                 [("INSUFFICIENT_GAS", "Insufficient gas.")]) in
  let s := "Transaction failed: INSUFFICIENT_GAS with MoveAbort code 1001" in
  Earlier.parseError d s
  = ParsedError.Make None (Some "INSUFFICIENT_GAS")
      "Transaction Error (INSUFFICIENT_GAS): Insufficient gas." true transaction
      (VString s).
Proof. vm_compute. reflexivity. Qed.

(** There the message of a content pattern is read from the table at
    each call. *)
Lemma content_message_read_at_call d s :
  Earlier.scan_exact (TxMap.entries (Earlier.transactionErrors d)) s = None ->
  Regex.test (Regex.literal "insufficient.*gas" true) s = true ->
  Earlier.checkTransactionErrors d s
  = Some ("INSUFFICIENT_GAS",
          Earlier.transaction_message "INSUFFICIENT_GAS"
            (Earlier.or_fallback
               (TxMap.lookup "INSUFFICIENT_GAS" (Earlier.transactionErrors d))
               "Insufficient gas for transaction")).
Proof.
  intros He Ht. unfold Earlier.checkTransactionErrors. rewrite He.
  unfold Earlier.transactionPatterns. cbn [Earlier.scan_patterns].
  rewrite Ht. reflexivity.
Qed.

Lemma content_message_follows_update :
  let d0 := Earlier.new ∅ []
              (Sample.custom_only ∅ [("INSUFFICIENT_GAS", "Insufficient gas.")]) in
  let d1 := Earlier.addTransactionErrors d0 [("INSUFFICIENT_GAS", "Out of gas")] in
  ParsedError.message (Earlier.parseError d1 "insufficient gas")
  = "Transaction Error (INSUFFICIENT_GAS): Out of gas".
Proof. vm_compute. reflexivity. Qed.

(** There a refresh of the defaults drops a custom entry whose key the
    built-in table also defines. *)
Lemma refresh_drops_override_of_builtin :
  let defaults : ErrorCodeMap := {[1000 := "Unknown verification error"]} in
  let d := Earlier.new defaults [] (Options (Some {[1000 := "A"]}) None None) in
  Earlier.errorCodes d !! 1000 = Some "A"
  /\ Earlier.errorCodes (Earlier.updateDefaultErrorCodes defaults d {[1000 := "B"]}) !! 1000
     = Some "B".
Proof. split; vm_compute; reflexivity. Qed.

End EarlierFacts.
